(** * airflow-dq: the data-quality operators, embedded and verified

    Shallow embedding of
      - [src/plugins/base_data_quality_operator.py]   (module [Plugins])
      - [src/operators/base_data_quality_operator.py] (module [Operators])
    together with the parts of the Python runtime and of Airflow that
    these files call ([str.format], [str], [round], [BaseHook], hooks,
    the logger), which are kept behind explicit interfaces.

    Effects (log lines, queries sent to a hook, records handed to a
    message writer, e-mails) are recorded in a chronological trace that
    is threaded through a small state-and-exception monad. *)

From Stdlib Require Import ZArith QArith List String Ascii Bool Lia DecimalString.
From stdpp Require Import base strings gmap list.

Import ListNotations.
Open Scope string_scope.
Open Scope list_scope.

(** ** Python exceptions and results *)

Inductive ExcClass : Type :=
| ValueError
| KeyError
| TypeError
| IndexError
| AirflowException
| NotImplementedError
| RuntimeFailure.   (* anything raised by a collaborator outside the repository *)

Record Exc : Type := mkExc { exc_class : ExcClass; exc_msg : string }.

Inductive Res (A : Type) : Type :=
| Ok (a : A)
| Raise (e : Exc).
Arguments Ok {A} a.
Arguments Raise {A} e.

Definition is_ok {A} (r : Res A) : bool :=
  match r with Ok _ => true | Raise _ => false end.

Definition res_bind {A B} (r : Res A) (k : A -> Res B) : Res B :=
  match r with Ok a => k a | Raise e => Raise e end.

(** ** Strings *)

Definition dquote : string := String "034"%char EmptyString.
Definition newline : string := String "010"%char EmptyString.
Definition lbrace : ascii := "{"%char.
Definition rbrace : ascii := "}"%char.

(** [contains s sub]: [sub] occurs in [s] as a contiguous substring. *)
Definition contains (s sub : string) : Prop :=
  exists p q : string, s = p +:+ sub +:+ q.

(** [''.join(pieces)]. *)
Fixpoint join_pieces (pieces : list string) : string :=
  match pieces with
  | [] => ""
  | p :: ps => p +:+ join_pieces ps
  end.

(** [sep.join(pieces)]. *)
Fixpoint str_join (sep : string) (pieces : list string) : string :=
  match pieces with
  | [] => ""
  | [p] => p
  | p :: ps => p +:+ sep +:+ str_join sep ps
  end.

Fixpoint brace_free (s : string) : bool :=
  match s with
  | EmptyString => true
  | String c s' =>
      negb (Ascii.eqb c lbrace) && negb (Ascii.eqb c rbrace) && brace_free s'
  end.

(** ** The Python runtime, as far as the operators use it

    Values that flow through an operator (cells of a query result, the
    entries of an info dictionary, the values of [check_args]) are kept
    abstract: the operators only print them, round them and store them.
    The interface lists the built-ins applied to them. *)

Class PyRuntime (V : Type) : Type := {
  (** [None] *)
  py_none : V;
  (** a [str] object as a value *)
  py_of_str : string -> V;
  (** [str(v)], which is also [format(v, '')] *)
  py_str : V -> string;
  (** [round(v, ndigits)]; raises [TypeError] on values without [__round__] *)
  py_round : V -> Z -> Res V;
  (** [str(rows)] for the list of rows a hook returns *)
  py_str_rows : list (list V) -> string;
  (** [str(row)] for one row *)
  py_str_row : list V -> string;
  (** [str.format] itself, consulted by [str_format] below only from the
      first replacement field that is not a plain keyword name
      (positional or numbered fields, attribute or index access,
      conversions, format specifications) *)
  py_format_ext : string -> gmap string V -> Res string;
  (** [str(s) == s] for a [str] object *)
  py_str_of_str : forall s : string, py_str (py_of_str s) = s;
}.

(** *** [str.format] with keyword arguments only

    The scan follows CPython's markup iterator, one character at a time:
    literal text is copied, a doubled brace stands for one brace, a lone
    closing brace or a lone opening brace at the end is a [ValueError],
    and a field [{name}] is replaced by [format(kwargs[name], '')], a
    missing name being a [KeyError]. *)

Definition is_ident_start (c : ascii) : bool :=
  let n := nat_of_ascii c in
  ((65 <=? n)%nat && (n <=? 90)%nat) || ((97 <=? n)%nat && (n <=? 122)%nat)
  || (n =? 95)%nat.

Definition is_ident_char (c : ascii) : bool :=
  let n := nat_of_ascii c in
  is_ident_start c || ((48 <=? n)%nat && (n <=? 57)%nat).

Definition single_open_msg : string := "Single '{' encountered in format string".
Definition single_close_msg : string := "Single '}' encountered in format string".

(** Where the scanner stands: in literal text, just after an opening or
    a closing brace, or inside a field whose name so far is [name]. *)
Inductive Scan : Type :=
| InText
| AfterOpen
| AfterClose
| InName (name : string).

Section Format.
Context {V : Type} `{PyRuntime V}.

Definition lookup_kwarg (name : string) (kwargs : gmap string V) : Res string :=
  match kwargs !! name with
  | Some v => Ok (py_str v)
  | None => Raise (mkExc KeyError ("'" +:+ name +:+ "'"))
  end.

Fixpoint format_scan (st : Scan) (t : string) (kwargs : gmap string V)
  : Res string :=
  match t with
  | EmptyString =>
      match st with
      | InText => Ok ""
      | AfterOpen => Raise (mkExc ValueError single_open_msg)
      | AfterClose => Raise (mkExc ValueError single_close_msg)
      | InName name => py_format_ext (String lbrace name) kwargs
      end
  | String c t' =>
      match st with
      | InText =>
          if Ascii.eqb c lbrace then format_scan AfterOpen t' kwargs
          else if Ascii.eqb c rbrace then format_scan AfterClose t' kwargs
          else res_bind (format_scan InText t' kwargs)
                        (fun r => Ok (String c r))
      | AfterOpen =>
          if Ascii.eqb c lbrace then
            res_bind (format_scan InText t' kwargs)
                     (fun r => Ok (String lbrace r))
          else if is_ident_start c then
            format_scan (InName (String c EmptyString)) t' kwargs
          else py_format_ext (String lbrace t) kwargs
      | AfterClose =>
          if Ascii.eqb c rbrace then
            res_bind (format_scan InText t' kwargs)
                     (fun r => Ok (String rbrace r))
          else Raise (mkExc ValueError single_close_msg)
      | InName name =>
          if Ascii.eqb c rbrace then
            res_bind (lookup_kwarg name kwargs) (fun v =>
            res_bind (format_scan InText t' kwargs) (fun r =>
            Ok (v +:+ r)))
          else if is_ident_char c then
            format_scan (InName (name +:+ String c EmptyString)) t' kwargs
          else py_format_ext (String lbrace (name +:+ t)) kwargs
      end
  end.

(** [template.format] applied to the keyword arguments [kwargs] *)
Definition str_format (template : string) (kwargs : gmap string V) : Res string :=
  format_scan InText template kwargs.
End Format.

(** ** Airflow, as far as the operators use it *)

(** The only attribute of an Airflow [Connection] the operators read. *)
Record Connection : Type := mkConnection { conn_type : string }.

(** The hook objects the operators build, with their constructor
    arguments; [AirflowHook] stands for whatever Airflow's own
    [BaseHook.get_hook] returns. *)
Inductive Hook : Type :=
| PostgresHook (postgres_conn_id : string)
| MySqlHook (mysql_conn_id : string)
| HiveServer2Hook (hiveserver2_conn_id : string)
| BigQueryHook (bigquery_conn_id : string) (use_legacy_sql : bool)
| AirflowHook (kind : string) (conn_id : string).

(** A configured message writer (an object with [send_message]). *)
Record MessageWriter : Type := mkWriter { writer_name : string }.

(** What an execution does to the outside world, in order. *)
Inductive Event (V : Type) : Type :=
| EvLog (logger : string) (message : string)
| EvQuery (hook : Hook) (sql : string)
| EvSendMessage (writer : MessageWriter) (info : list (string * V))
| EvSendEmail (to : option (list string)) (subject html_content : string).
Arguments EvLog {V} logger message.
Arguments EvQuery {V} hook sql.
Arguments EvSendMessage {V} writer info.
Arguments EvSendEmail {V} to subject html_content.

Definition is_sink_call {V} (e : Event V) : bool :=
  match e with
  | EvSendMessage _ _ | EvSendEmail _ _ _ => true
  | _ => false
  end.

(** The collaborators: the connection table behind
    [BaseHook.get_connection], [BaseHook.get_hook], the databases behind
    [hook.get_records], a writer's [send_message], [send_email], and
    [BaseOperator.__init__] (which returns the [dag_id] the operator
    will report, or raises). *)
Record Airflow (V : Type) : Type := mkAirflow {
  connections : gmap string Connection;
  base_get_hook : string -> Res Hook;
  hook_get_records : Hook -> string -> Res (list (list V));
  writer_send_message : MessageWriter -> list (string * V) -> Res unit;
  send_email : option (list string) -> string -> string -> Res unit;
  base_operator_init : string -> Res string;
}.
Arguments connections {V} _.
Arguments base_get_hook {V} _ _.
Arguments hook_get_records {V} _ _ _.
Arguments writer_send_message {V} _ _ _.
Arguments send_email {V} _ _ _ _.
Arguments base_operator_init {V} _ _.

(** [BaseHook.get_connection(conn_id)] *)
Definition get_connection {V} (env : Airflow V) (conn_id : string) : Res Connection :=
  match connections env !! conn_id with
  | Some c => Ok c
  | None =>
      Raise (mkExc AirflowException
                   ("The conn_id `" +:+ conn_id +:+ "` isn't defined"))
  end.

(** ** State and exceptions

    A computation runs on an object [self] and the trace of events so
    far; when it raises, the events emitted before are kept. *)

Record Machine (Self V : Type) : Type := mkMachine {
  self : Self;
  trace : list (Event V);
}.
Arguments mkMachine {Self V} self trace.
Arguments self {Self V} _.
Arguments trace {Self V} _.

Definition M (Self V A : Type) : Type :=
  Machine Self V -> Res A * Machine Self V.

Definition ret {Self V A} (a : A) : M Self V A := fun m => (Ok a, m).

Definition bind {Self V A B} (c : M Self V A) (k : A -> M Self V B) : M Self V B :=
  fun m =>
    match c m with
    | (Ok a, m') => k a m'
    | (Raise e, m') => (Raise e, m')
    end.

Definition raise {Self V A} (cls : ExcClass) (msg : string) : M Self V A :=
  fun m => (Raise (mkExc cls msg), m).

Definition lift {Self V A} (r : Res A) : M Self V A := fun m => (r, m).

Definition emit {Self V} (e : Event V) : M Self V unit :=
  fun m => (Ok tt, mkMachine (self m) (trace m ++ [e])).

Definition ask {Self V} : M Self V Self := fun m => (Ok (self m), m).

Notation "'let!' x ':=' c 'in' k" := (bind c (fun x => k))
  (at level 10, x name, c at level 100, k at level 200).
Notation "'run!' c 'in' k" := (bind c (fun _ => k))
  (at level 10, c at level 100, k at level 200).

(** ** Python containers *)

(** [len(l) ... l[i]]: indexing raises outside the list. *)
Definition list_item {A} (l : list A) (i : nat) : Res A :=
  match l !! i with
  | Some x => Ok x
  | None => Raise (mkExc IndexError "list index out of range")
  end.

(** [d.get(key)] on an (ordered) dictionary: [None] for a missing key. *)
Fixpoint dict_get {V} `{PyRuntime V} (d : list (string * V)) (key : string) : V :=
  match d with
  | [] => py_none
  | (k, v) :: d' => if String.eqb k key then v else dict_get d' key
  end.

(** Truthiness of an optional string: [None] and [''] are false. *)
Definition str_truthy (s : option string) : bool :=
  match s with
  | Some (String _ _) => true
  | _ => false
  end.

(** Truthiness of an optional dictionary: [None] and [{}] are false. *)
Definition dict_truthy {V} (d : option (gmap string V)) : bool :=
  match d with
  | Some a => negb (Nat.eqb (size a) 0)
  | None => false
  end.

(** The three messages of a result of the wrong shape. *)
Definition more_than_one_msg : string :=
  "Result from sql query contains more than 1 entry".
Definition no_result_msg : string :=
  "No result returned from sql query".
Definition not_one_column_msg : string :=
  "Result from sql query does not contain exactly 1 column".

(** ** src/plugins/base_data_quality_operator.py *)

Module Plugins.
Section Plugins.
Context {V : Type} `{PyRuntime V}.
Variable env : Airflow V.

Record Operator : Type := mkOperator {
  dag_id : string;
  conn_id : string;
  push_conn_id : option string;
  sql : string;
  check_description : option string;
  notification_emails : option (list string);
}.

(** [BaseDataQualityOperator.__init__]: the base class is initialised
    first, then the attributes are stored as given. *)
Definition __init__ (task_id sql conn_id : string)
    (push_conn_id check_description : option string)
    (notification_emails : option (list string)) : Res Operator :=
  res_bind (base_operator_init env task_id) (fun dag =>
  Ok {| dag_id := dag;
        conn_id := conn_id;
        push_conn_id := push_conn_id;
        sql := sql;
        check_description := check_description;
        notification_emails := notification_emails |}).

(** [execute]: abstract. *)
Definition execute {A} : M Operator V A := raise NotImplementedError "".

(** [push]: the body is [pass]. *)
Definition push (info_dict : list (string * V)) : M Operator V unit := ret tt.

(** [send_email_notification(info_dict)]: the body is an f-string, its
    fields evaluated from left to right. *)
Definition send_email_notification (info_dict : list (string * V))
  : M Operator V unit :=
  let! me := ask in
  let! result := lift (py_round (dict_get info_dict "result") 2) in
  let task := py_str (dict_get info_dict "task_id") in
  let body :=
    join_pieces
      [ "<h1>Data Quality Check: "; dquote; task; dquote; " failed.</h1><br>";
        newline; "<b>DAG:</b> "; dag_id me; "<br>";
        newline; "<b>Task_id:</b> "; task; "<br>";
        newline; "<b>Check description:</b> ";
        py_str (dict_get info_dict "description"); "<br>";
        newline; "<b>Execution date:</b> ";
        py_str (dict_get info_dict "execution_date"); "<br>";
        newline; "<b>SQL:</b> "; sql me; "<br>";
        newline; "<b>Result:</b> "; py_str result;
        " is not within thresholds ";
        py_str (dict_get info_dict "min_threshold"); " and ";
        py_str (dict_get info_dict "max_threshold") ] in
  let subject :=
    join_pieces [ "Data Quality Check: "; dquote; task; dquote; " failed" ] in
  run! emit (EvSendEmail (notification_emails me) subject body) in
  lift (send_email env (notification_emails me) subject body).

Definition unsupported_msg (conn_type : string) : string :=
  "Connection type of " +:+ dquote +:+ conn_type +:+ dquote
    +:+ " not currently supported".

(** [_get_hook(conn_id)] *)
Definition _get_hook (conn_id : string) : Res Hook :=
  res_bind (get_connection env conn_id) (fun conn =>
  let conn_type := conn_type conn in
  if String.eqb conn_type "postgres" then Ok (PostgresHook conn_id)
  else if String.eqb conn_type "mysql" then Ok (MySqlHook conn_id)
  else if String.eqb conn_type "hive" then Ok (HiveServer2Hook conn_id)
  else Raise (mkExc ValueError (unsupported_msg conn_type))).

(** [get_sql_value(conn_id, sql)], a module-level function: it runs on
    any [self]. *)
Definition get_sql_value {Self} (conn_id sql : string) : M Self V V :=
  let! hook := lift (_get_hook conn_id) in
  run! emit (EvQuery hook sql) in
  let! result := lift (hook_get_records env hook sql) in
  if (1 <? length result)%nat then
    run! emit (EvLog "root"
                 ("Result: " +:+ py_str_rows result
                    +:+ " contains more than 1 entry")) in
    raise ValueError more_than_one_msg
  else if (length result <? 1)%nat then
    raise ValueError no_result_msg
  else
    let! row := lift (list_item result 0) in
    if negb (length row =? 1)%nat then
      run! emit (EvLog "root"
                   ("Result: " +:+ py_str_row row
                      +:+ " does not contain exactly 1 column")) in
      raise ValueError not_one_column_msg
    else
      lift (list_item row 0).
End Plugins.
End Plugins.

(** ** src/operators/base_data_quality_operator.py *)

Module Operators.
Section Operators.
Context {V : Type} `{PyRuntime V}.
Variable env : Airflow V.

Record Operator : Type := mkOperator {
  task_id : string;
  dag_id : string;
  conn_id : string;
  push_conn_id : option string;
  sql : string;
  use_legacy_sql : bool;
  message_writer : option MessageWriter;
  dq_check_args : gmap string V;
  check_description : option string;
}.

(** [self.dq_check_args]: [check_args] when it is truthy, else [{}]. *)
Definition resolve_check_args (check_args : option (gmap string V))
  : gmap string V :=
  if dict_truthy check_args
  then match check_args with Some a => a | None => ∅ end
  else ∅.

(** [self.check_description]: formatted when truthy, else kept. *)
Definition resolve_description (check_description : option string)
    (args : gmap string V) : Res (option string) :=
  if str_truthy check_description
  then match check_description with
       | Some d => res_bind (str_format d args) (fun r => Ok (Some r))
       | None => Ok None
       end
  else Ok check_description.

(** [BaseDataQualityOperator.__init__] *)
Definition __init__ (task_id sql conn_id : string)
    (push_conn_id check_description : option string)
    (use_legacy_sql : bool) (message_writer : option MessageWriter)
    (check_args : option (gmap string V)) : Res Operator :=
  let args := resolve_check_args check_args in
  res_bind (resolve_description check_description args) (fun description =>
  res_bind (str_format task_id args) (fun task_id' =>
  res_bind (base_operator_init env task_id') (fun dag =>
  Ok {| task_id := task_id';
        dag_id := dag;
        conn_id := conn_id;
        push_conn_id := push_conn_id;
        sql := sql;
        use_legacy_sql := use_legacy_sql;
        message_writer := message_writer;
        dq_check_args := args;
        check_description := description |}))).

(** [execute]: abstract. *)
Definition execute {A} : M Operator V A := raise NotImplementedError "".

(** The rendering [key: item], one line per entry. *)
Definition render_info (info : list (string * V)) : string :=
  str_join newline (map (fun kv => fst kv +:+ ": " +:+ py_str (snd kv)) info).

(** [push(info_ordereddict)] *)
Definition push (info_ordereddict : list (string * V)) : M Operator V unit :=
  let! me := ask in
  let info := render_info info_ordereddict in
  run! emit (EvLog "base_data_quality_operator"
               ("Log from " +:+ dag_id me +:+ ":" +:+ newline +:+ info)) in
  match message_writer me with
  | Some writer =>
      run! emit (EvSendMessage writer info_ordereddict) in
      lift (writer_send_message env writer info_ordereddict)
  | None => ret tt
  end.

Definition indent : string := "            ".

(** The template of the failure message, a triple-quoted literal. *)
Definition failure_template : string :=
  join_pieces
    [ newline;
      indent; "Data Quality Check: "; dquote; "{task_id}"; dquote; " failed."; newline;
      indent; "DAG: {dag_id}"; newline;
      indent; "Task_id: {task_id}"; newline;
      indent; "Check description: {description}"; newline;
      indent; "Execution date: {execution_date}"; newline;
      indent; "SQL: {sql}"; newline;
      indent; "Result: {result} is not within thresholds {min_threshold}"; newline;
      indent; "    and {max_threshold}"; newline;
      "        " ].

(** The keyword arguments of the [format] call, evaluated in the order
    written: [round] is the one that can raise. *)
Definition failure_kwargs (me : Operator) (info_dict : list (string * V))
  : Res (gmap string V) :=
  res_bind (py_round (dict_get info_dict "result") 2) (fun result =>
  Ok (<["task_id" := py_of_str (task_id me)]>
     (<["dag_id" := py_of_str (dag_id me)]>
     (<["description" := dict_get info_dict "description"]>
     (<["sql" := py_of_str (sql me)]>
     (<["execution_date" :=
          py_of_str (py_str (dict_get info_dict "execution_date"))]>
     (<["result" := result]>
     (<["min_threshold" := dict_get info_dict "min_threshold"]>
     (<["max_threshold" := dict_get info_dict "max_threshold"]> ∅))))))))).

(** [send_failure_notification(info_dict)] *)
Definition send_failure_notification {A} (info_dict : list (string * V))
  : M Operator V A :=
  let! me := ask in
  let! kwargs := lift (failure_kwargs me info_dict) in
  let! body := lift (str_format failure_template kwargs) in
  raise AirflowException body.

(** The first five lines of [get_sql_value] (the connection and the
    hook), named here so that statements can refer to them. *)
Definition resolve_hook (me : Operator) (conn_id : string) : Res Hook :=
  res_bind (get_connection env conn_id) (fun conn =>
  if String.eqb (conn_type conn) "google_cloud_platform"
  then Ok (BigQueryHook conn_id (use_legacy_sql me))
  else base_get_hook env conn_id).

(** [get_sql_value(conn_id, sql)] *)
Definition get_sql_value (conn_id sql : string) : M Operator V V :=
  let! me := ask in
  let! hook := lift (resolve_hook me conn_id) in
  run! emit (EvQuery hook sql) in
  let! result := lift (hook_get_records env hook sql) in
  if (1 <? length result)%nat then
    run! emit (EvLog "root"
                 ("Result: " +:+ py_str_rows result
                    +:+ " contains more than 1 entry")) in
    raise ValueError more_than_one_msg
  else if (length result <? 1)%nat then
    raise ValueError no_result_msg
  else
    let! row := lift (list_item result 0) in
    if negb (length row =? 1)%nat then
      run! emit (EvLog "root"
                   ("Result: " +:+ py_str_row row
                      +:+ " does not contain exactly 1 column")) in
      raise ValueError not_one_column_msg
    else
      lift (list_item row 0).
End Operators.
End Operators.

(** ** The failure message, piece by piece

    What [failure_template] becomes once its eight fields are filled in;
    used to state what the message contains. *)
Definition failure_body
    (task_id dag_id description execution_date sql result
       min_threshold max_threshold : string) : string :=
  join_pieces
    [ newline;
      Operators.indent; "Data Quality Check: "; dquote; task_id; dquote;
      " failed."; newline;
      Operators.indent; "DAG: "; dag_id; newline;
      Operators.indent; "Task_id: "; task_id; newline;
      Operators.indent; "Check description: "; description; newline;
      Operators.indent; "Execution date: "; execution_date; newline;
      Operators.indent; "SQL: "; sql; newline;
      Operators.indent; "Result: "; result; " is not within thresholds ";
      min_threshold; newline;
      Operators.indent; "    and "; max_threshold; newline;
      "        " ].

(** The log line [push] writes for [info] on the operator of [m]. *)
Definition push_log_line {V : Type} `{PyRuntime V} (info : list (string * V))
    (m : Machine (Operators.Operator (V := V)) V) : Event V :=
  EvLog "base_data_quality_operator"
        ("Log from " +:+ Operators.dag_id (self m) +:+ ":" +:+ newline
           +:+ Operators.render_info info).

(** A computation that leaves the object it runs on as it is. *)
Definition keeps_self {Self V A} (c : M Self V A) : Prop :=
  forall m, self (snd (c m)) = self m.

(** ** The threshold check unit *)

Module ThresholdCheck.

(** Modelled from the spec: the resolved bounds of a check
    (ThresholdBounds, section 3); the threshold operators that build
    them are not among the sources. *)
Record ThresholdBounds : Type := mkBounds { min : Q; max : Q }.

(** Modelled from the spec: the Threshold Evaluator of section 4.3,
    [evaluate(measured, bounds)], whose pass condition is
    [bounds.min <= measured <= bounds.max]; the operator's [execute]
    that computes it is not among the sources. *)
Definition evaluate (measured : Q) (bounds : ThresholdBounds) : bool :=
  Qle_bool (min bounds) measured && Qle_bool measured (max bounds).

(** Modelled from the spec: the part of CheckConfig (section 3) that
    reaches the result record, after construction-time substitution. *)
Record CheckConfig : Type := mkConfig {
  identifier : string;
  description : option string;
}.

(** Modelled from the spec: the value of a CheckResult field. *)
Inductive Field : Type :=
| FText (s : string)
| FOptText (s : option string)
| FNumber (q : Q)
| FBoolean (b : bool).

(** Modelled from the spec: the Result Record Builder of section 4.4,
    [build(config, measured, bounds, passed, executionTimestamp)],
    producing the ordered record of section 3; the operator's
    [execute] that assembles it is not among the sources. *)
Definition build (config : CheckConfig) (measured : Q)
    (bounds : ThresholdBounds) (passed : bool)
    (executionTimestamp : string) : list (string * Field) :=
  [ ("identifier", FText (identifier config));
    ("description", FOptText (description config));
    ("execution_timestamp", FText executionTimestamp);
    ("measured_value", FNumber measured);
    ("min_threshold", FNumber (min bounds));
    ("max_threshold", FNumber (max bounds));
    ("within_threshold", FBoolean passed) ].

(** Modelled from the spec: the record an execution produces, the
    builder applied to the evaluator's verdict (section 4.6). *)
Definition check_result (config : CheckConfig) (measured : Q)
    (bounds : ThresholdBounds) (executionTimestamp : string)
  : list (string * Field) :=
  build config measured bounds (evaluate measured bounds) executionTimestamp.

Definition field_names : list string :=
  [ "identifier"; "description"; "execution_timestamp"; "measured_value";
    "min_threshold"; "max_threshold"; "within_threshold" ].

End ThresholdCheck.

(** ** A concrete runtime

    Integers, booleans, strings and [None]: enough to run the operators
    on examples. *)

Inductive PyVal : Type :=
| VNone
| VBool (b : bool)
| VInt (z : Z)
| VStr (s : string).

Definition str_of_Z (z : Z) : string :=
  DecimalString.NilZero.string_of_int (Z.to_int z).

Definition pyval_str (v : PyVal) : string :=
  match v with
  | VNone => "None"
  | VBool true => "True"
  | VBool false => "False"
  | VInt z => str_of_Z z
  | VStr s => s
  end.

(** [repr(v)]; string escapes are not rendered. *)
Definition pyval_repr (v : PyVal) : string :=
  match v with
  | VStr s => "'" +:+ s +:+ "'"
  | _ => pyval_str v
  end.

(** [round(z, ndigits)] on an [int]: the integer itself for
    [ndigits >= 0], else the nearest multiple of [10 ** -ndigits], ties
    to the even multiple. *)
Definition round_int (z ndigits : Z) : Z :=
  if (0 <=? ndigits)%Z then z
  else
    let q := (10 ^ (- ndigits))%Z in
    let k := (z / q)%Z in
    let r := (z - k * q)%Z in
    if (2 * r <? q)%Z then (k * q)%Z
    else if (q <? 2 * r)%Z then ((k + 1) * q)%Z
    else if Z.even k then (k * q)%Z else ((k + 1) * q)%Z.

Definition pyval_round (v : PyVal) (ndigits : Z) : Res PyVal :=
  match v with
  | VInt z => Ok (VInt (round_int z ndigits))
  | VBool b => Ok (VInt (round_int (if b then 1 else 0) ndigits))
  | VNone =>
      Raise (mkExc TypeError "type NoneType doesn't define __round__ method")
  | VStr _ =>
      Raise (mkExc TypeError "type str doesn't define __round__ method")
  end.

(** [str(row)] of a row tuple. *)
Definition pyval_str_row (row : list PyVal) : string :=
  match row with
  | [v] => "(" +:+ pyval_repr v +:+ ",)"
  | _ => "(" +:+ str_join ", " (map pyval_repr row) +:+ ")"
  end.

Definition pyval_str_rows (rows : list (list PyVal)) : string :=
  "[" +:+ str_join ", " (map pyval_str_row rows) +:+ "]".

(** Fields beyond plain keyword names are not run by this instance. *)
Definition pyval_format_ext (t : string) (kwargs : gmap string PyVal) : Res string :=
  Raise (mkExc RuntimeFailure "replacement field outside the keyword-name fragment").

#[export] Instance pyval_runtime : PyRuntime PyVal := {|
  py_none := VNone;
  py_of_str := VStr;
  py_str := pyval_str;
  py_round := pyval_round;
  py_str_rows := pyval_str_rows;
  py_str_row := pyval_str_row;
  py_format_ext := pyval_format_ext;
  py_str_of_str := fun s => eq_refl;
|}.

(** ** An installation to run examples on

    Five connections; the databases answer four fixed queries. *)

Definition demo_connections : gmap string Connection :=
  {[ "pg" := mkConnection "postgres";
     "my" := mkConnection "mysql";
     "hv" := mkConnection "hive";
     "bq" := mkConnection "google_cloud_platform";
     "ora" := mkConnection "oracle" ]}.

Definition demo_get_hook (conn_id : string) : Res Hook :=
  match demo_connections !! conn_id with
  | Some c =>
      if String.eqb (conn_type c) "oracle"
      then Raise (mkExc AirflowException "Unknown hook type")
      else Ok (AirflowHook (conn_type c) conn_id)
  | None => Raise (mkExc AirflowException "The conn_id isn't defined")
  end.

Definition demo_records (hook : Hook) (sql : string) : Res (list (list PyVal)) :=
  if String.eqb sql "SELECT 12" then Ok [[VInt 12]]
  else if String.eqb sql "SELECT 1 WHERE false" then Ok []
  else if String.eqb sql "SELECT 1, 2" then Ok [[VInt 1; VInt 2]]
  else if String.eqb sql "SELECT v FROM t" then Ok [[VInt 1]; [VInt 2]]
  else Raise (mkExc RuntimeFailure "syntax error").

Definition demo_env : Airflow PyVal := {|
  connections := demo_connections;
  base_get_hook := demo_get_hook;
  hook_get_records := demo_records;
  writer_send_message := fun _ _ => Ok tt;
  send_email := fun _ _ _ => Ok tt;
  base_operator_init := fun _ => Ok "dq_dag";
|}.

(** An operator as [Operators.__init__] leaves it, with or without a
    message writer. *)
Definition demo_operator (writer : option MessageWriter)
  : Operators.Operator (V := PyVal) :=
  {| Operators.task_id := "row_count";
     Operators.dag_id := "dq_dag";
     Operators.conn_id := "pg";
     Operators.push_conn_id := None;
     Operators.sql := "SELECT 12";
     Operators.use_legacy_sql := false;
     Operators.message_writer := writer;
     Operators.dq_check_args := ∅;
     Operators.check_description := Some "rows loaded" |}.

(** An info dictionary of a passing check, with the keys the operators read. *)
Definition demo_passing_info : list (string * PyVal) :=
  [ ("result", VInt 12);
    ("description", VStr "rows loaded");
    ("task_id", VStr "row_count");
    ("execution_date", VStr "2019-08-01");
    ("min_threshold", VInt 10);
    ("max_threshold", VInt 15);
    ("within_threshold", VBool true) ].

(** The same check against thresholds it misses. *)
Definition demo_failing_info : list (string * PyVal) :=
  [ ("result", VInt 12);
    ("description", VStr "rows loaded");
    ("task_id", VStr "row_count");
    ("execution_date", VStr "2019-08-01");
    ("min_threshold", VInt 50);
    ("max_threshold", VInt 75);
    ("within_threshold", VBool false) ].

(** The arguments of the example construction. *)
Definition demo_check_args : gmap string PyVal := {[ "table" := VStr "users" ]}.


(** ** Reading a trace *)

Definition is_query {V} (e : Event V) : bool :=
  match e with EvQuery _ _ => true | _ => false end.

Definition is_log {V} (e : Event V) : bool :=
  match e with EvLog _ _ => true | _ => false end.

Definition is_email {V} (e : Event V) : bool :=
  match e with EvSendEmail _ _ _ => true | _ => false end.

(** The kinds [_get_hook] of the plugin knows. *)
Definition plugin_supported (kind : string) : bool :=
  String.eqb kind "postgres" || String.eqb kind "mysql" || String.eqb kind "hive".

(** An operator of the plugin version, for examples. *)
Definition demo_plugin_operator : Plugins.Operator :=
  {| Plugins.dag_id := "dq_dag";
     Plugins.conn_id := "pg";
     Plugins.push_conn_id := None;
     Plugins.sql := "SELECT 12";
     Plugins.check_description := Some "rows loaded";
     Plugins.notification_emails := Some ["dq@example.com"] |}.

(** An info dictionary without the key [result]. *)
Definition demo_info_without_result : list (string * PyVal) :=
  [ ("description", VStr "rows loaded");
    ("task_id", VStr "row_count");
    ("execution_date", VStr "2019-08-01");
    ("min_threshold", VInt 50);
    ("max_threshold", VInt 75);
    ("within_threshold", VBool false) ].

(** The connection id a hook was built on. *)
Definition hook_conn_id (h : Hook) : string :=
  match h with
  | PostgresHook c | MySqlHook c | HiveServer2Hook c => c
  | BigQueryHook c _ => c
  | AirflowHook _ c => c
  end.

(** An installation whose [BaseHook.get_hook] builds, for a Postgres
    connection, the hook the plugin builds. *)
Definition demo_get_hook_like_plugin (conn_id : string) : Res Hook :=
  match demo_connections !! conn_id with
  | Some c =>
      if String.eqb (conn_type c) "postgres" then Ok (PostgresHook conn_id)
      else Raise (mkExc AirflowException "Unknown hook type")
  | None => Raise (mkExc AirflowException "The conn_id isn't defined")
  end.

Definition demo_env_like_plugin : Airflow PyVal := {|
  connections := demo_connections;
  base_get_hook := demo_get_hook_like_plugin;
  hook_get_records := demo_records;
  writer_send_message := fun _ _ => Ok tt;
  send_email := fun _ _ _ => Ok tt;
  base_operator_init := fun _ => Ok "dq_dag";
|}.

(** One line of the rendering of an info dictionary: [key: item]. *)
Definition info_line {V : Type} `{PyRuntime V} (kv : string * V) : string :=
  fst kv +:+ ": " +:+ py_str (snd kv).

(** Keyword names as the scanner of [str_format] reads them. *)
Fixpoint all_ident_chars (s : string) : bool :=
  match s with
  | EmptyString => true
  | String c s' => is_ident_char c && all_ident_chars s'
  end.

Definition is_identifier (s : string) : bool :=
  match s with
  | EmptyString => false
  | String c s' => is_ident_start c && all_ident_chars s'
  end.

(** The template [prefix{name}suffix]. *)
Definition one_field_template (prefix name suffix : string) : string :=
  prefix +:+ String lbrace (name +:+ String rbrace suffix).

(** [str(KeyError(name))] *)
Definition key_error_msg (name : string) : string := "'" +:+ name +:+ "'".

(** [has_placeholder t]: the template has a replacement field, that is,
    an opening brace that is not one of a doubled pair. Doubled braces
    of either kind are skipped as the pairs they are; a closing brace on
    its own opens nothing. *)
Fixpoint has_placeholder_from (after_open after_close : bool) (t : string) : bool :=
  match t with
  | EmptyString => after_open
  | String c t' =>
      if after_open then
        if Ascii.eqb c lbrace then has_placeholder_from false false t' else true
      else if after_close then
        if Ascii.eqb c rbrace then has_placeholder_from false false t'
        else if Ascii.eqb c lbrace then has_placeholder_from true false t'
        else has_placeholder_from false false t'
      else if Ascii.eqb c lbrace then has_placeholder_from true false t'
      else if Ascii.eqb c rbrace then has_placeholder_from false true t'
      else has_placeholder_from false false t'
  end.

Definition has_placeholder (t : string) : bool :=
  has_placeholder_from false false t.

(** An operator as the constructor leaves it for a BigQuery connection
    with legacy SQL switched on. *)
Definition demo_legacy_operator : Operators.Operator (V := PyVal) :=
  {| Operators.task_id := "bq_rows";
     Operators.dag_id := "dq_dag";
     Operators.conn_id := "bq";
     Operators.push_conn_id := None;
     Operators.sql := "SELECT 12";
     Operators.use_legacy_sql := true;
     Operators.message_writer := None;
     Operators.dq_check_args := ∅;
     Operators.check_description := None |}.

(** * Properties *)

(** ** Strings and substitution *)

Lemma str_app_cons (x : ascii) (a b : string) :
  String x a +:+ b = String x (a +:+ b).
Proof. reflexivity. Qed.

Lemma str_app_assoc (a b c : string) : (a +:+ b) +:+ c = a +:+ (b +:+ c).
Proof.
  induction a as [|x a IH]; [reflexivity|].
  now rewrite !str_app_cons, IH.
Qed.

Lemma contains_here (sub q : string) : contains (sub +:+ q) sub.
Proof. exists "", q. reflexivity. Qed.

Lemma contains_later (p s sub : string) :
  contains s sub -> contains (p +:+ s) sub.
Proof.
  intros (a & b & ->). exists (p +:+ a), b. now rewrite str_app_assoc.
Qed.

Lemma contains_join_pieces (pieces : list string) (sub : string) :
  In sub pieces -> contains (join_pieces pieces) sub.
Proof.
  induction pieces as [|p ps IH]; simpl; [tauto|].
  intros [->|Hin].
  - apply contains_here.
  - apply contains_later, IH, Hin.
Qed.

Section FormatFacts.
Context {V : Type} `{PyRuntime V}.

(** Text without braces is copied as it is, whatever the arguments. *)
Lemma str_format_brace_free (t : string) (kwargs : gmap string V) :
  brace_free t = true -> str_format t kwargs = Ok t.
Proof.
  unfold str_format. induction t as [|c t IH]; simpl; [reflexivity|].
  intros Hbf.
  apply andb_true_iff in Hbf as [Hc Ht].
  apply andb_true_iff in Hc as [Hl Hr].
  apply negb_true_iff in Hl, Hr.
  rewrite Hl, Hr, (IH Ht). reflexivity.
Qed.
End FormatFacts.

(** A doubled brace is unescaped and a field is looked up: formatting is
    not idempotent, so it matters how often it is applied. *)
Example str_format_once_example :
  str_format "check_{{t}}_{t}" ({[ "t" := VStr "x" ]} : gmap string PyVal)
    = Ok "check_{t}_x"
  /\ str_format "check_{t}_x" ({[ "t" := VStr "x" ]} : gmap string PyVal)
    = Ok "check_x_x".
Proof. split; vm_compute; reflexivity. Qed.

(** ** The monad *)

Ltac run_monad :=
  unfold bind, lift, emit, ask, ret, raise; cbn [fst snd self trace].

(** ** Threshold evaluation and the result record *)

Section ThresholdFacts.
Import ThresholdCheck.

Lemma evaluate_spec (m lo hi : Q) :
  evaluate m (mkBounds lo hi) = true <-> (lo <= m /\ m <= hi)%Q.
Proof.
  unfold evaluate; cbn [min max].
  rewrite andb_true_iff, !Qle_bool_iff. tauto.
Qed.

Lemma evaluate_false (m lo hi : Q) :
  (m < lo \/ hi < m)%Q -> evaluate m (mkBounds lo hi) = false.
Proof.
  intros Hout. apply not_true_is_false. rewrite evaluate_spec.
  intros [Hlo Hhi]. destruct Hout as [Hlt|Hlt].
  - exact (Qlt_not_le _ _ Hlt Hlo).
  - exact (Qlt_not_le _ _ Hlt Hhi).
Qed.
End ThresholdFacts.

(** C1: for every measured value [m] and bounds [lo], [hi], the verdict
    [within_threshold] is true exactly when [lo <= m <= hi]; both ends
    are inclusive ([m == lo] and [m == hi] pass, for bounds in order),
    and [m < lo] or [m > hi] fail. *)
Theorem evaluate_inclusive_bounds (m lo hi : Q) :
  (ThresholdCheck.evaluate m (ThresholdCheck.mkBounds lo hi) = true
     <-> (lo <= m /\ m <= hi)%Q)
  /\ ((lo <= hi)%Q -> (m == lo)%Q ->
      ThresholdCheck.evaluate m (ThresholdCheck.mkBounds lo hi) = true)
  /\ ((lo <= hi)%Q -> (m == hi)%Q ->
      ThresholdCheck.evaluate m (ThresholdCheck.mkBounds lo hi) = true)
  /\ ((m < lo)%Q ->
      ThresholdCheck.evaluate m (ThresholdCheck.mkBounds lo hi) = false)
  /\ ((hi < m)%Q ->
      ThresholdCheck.evaluate m (ThresholdCheck.mkBounds lo hi) = false).
Proof.
  split; [apply evaluate_spec|].
  split; [|split; [|split]].
  - intros Hord Heq. apply evaluate_spec. rewrite Heq. split; [apply Qle_refl | exact Hord].
  - intros Hord Heq. apply evaluate_spec. rewrite Heq. split; [exact Hord | apply Qle_refl].
  - intros Hlt. apply evaluate_false. now left.
  - intros Hlt. apply evaluate_false. now right.
Qed.

(** The boundaries and both sides of the interval [10, 15], through
    [evaluate_inclusive_bounds]. *)
Lemma evaluate_inclusive_bounds_witness :
  ThresholdCheck.evaluate 10 (ThresholdCheck.mkBounds 10 15) = true
  /\ ThresholdCheck.evaluate 15 (ThresholdCheck.mkBounds 10 15) = true
  /\ ThresholdCheck.evaluate 9 (ThresholdCheck.mkBounds 10 15) = false
  /\ ThresholdCheck.evaluate 16 (ThresholdCheck.mkBounds 10 15) = false.
Proof.
  split; [|split; [|split]].
  - apply (proj1 (proj2 (evaluate_inclusive_bounds 10 10 15))).
    + unfold Qle; simpl; lia.
    + reflexivity.
  - apply (proj1 (proj2 (proj2 (evaluate_inclusive_bounds 15 10 15)))).
    + unfold Qle; simpl; lia.
    + reflexivity.
  - apply (proj1 (proj2 (proj2 (proj2 (evaluate_inclusive_bounds 9 10 15))))).
    unfold Qlt; simpl; lia.
  - apply (proj2 (proj2 (proj2 (proj2 (evaluate_inclusive_bounds 16 10 15))))).
    unfold Qlt; simpl; lia.
Defined.

(** C5: the record an execution produces has exactly seven fields, in
    the order identifier, description, execution_timestamp,
    measured_value, min_threshold, max_threshold, within_threshold,
    whether the check passed or failed. *)
Theorem check_result_seven_fields
    (config : ThresholdCheck.CheckConfig) (measured : Q)
    (bounds : ThresholdCheck.ThresholdBounds) (passed : bool)
    (executionTimestamp : string) :
  map fst (ThresholdCheck.build config measured bounds passed executionTimestamp)
    = ThresholdCheck.field_names
  /\ map fst (ThresholdCheck.check_result config measured bounds executionTimestamp)
    = ThresholdCheck.field_names
  /\ length (ThresholdCheck.check_result config measured bounds executionTimestamp)
    = 7%nat
  /\ length (ThresholdCheck.build config measured bounds passed executionTimestamp)
    = 7%nat
  /\ NoDup ThresholdCheck.field_names.
Proof.
  repeat split; try reflexivity.
  unfold ThresholdCheck.field_names.
  apply (bool_decide_unpack _). vm_compute. reflexivity.
Qed.


(** ** The scalar query: [get_sql_value] *)

(** Both versions end in the same inspection of the rows; these tactics
    run a call up to it. *)
Ltac run_query Hhook Hrows :=
  run_monad; rewrite Hhook; cbn [fst snd self trace]; rewrite Hrows.

Section PluginQueryFacts.
Context {V : Type} `{PyRuntime V} {Self : Type}.
Variable env : Airflow V.
Variables (conn_id sql : string) (hook : Hook) (m : Machine Self V).
Hypothesis Hhook : Plugins._get_hook env conn_id = Ok hook.

Lemma plugin_single_cell (v : V) :
  hook_get_records env hook sql = Ok [[v]] ->
  Plugins.get_sql_value env conn_id sql m
    = (Ok v, mkMachine (self m) (trace m ++ [EvQuery hook sql])).
Proof using Hhook.
  intros Hrows. unfold Plugins.get_sql_value. run_query Hhook Hrows.
  reflexivity.
Qed.

Lemma plugin_no_rows :
  hook_get_records env hook sql = Ok [] ->
  Plugins.get_sql_value env conn_id sql m
    = (Raise (mkExc ValueError no_result_msg),
       mkMachine (self m) (trace m ++ [EvQuery hook sql])).
Proof using Hhook.
  intros Hrows. unfold Plugins.get_sql_value. run_query Hhook Hrows.
  reflexivity.
Qed.

Lemma plugin_many_rows (rows : list (list V)) :
  hook_get_records env hook sql = Ok rows ->
  (1 < length rows)%nat ->
  Plugins.get_sql_value env conn_id sql m
    = (Raise (mkExc ValueError more_than_one_msg),
       mkMachine (self m)
         ((trace m ++ [EvQuery hook sql])
            ++ [EvLog "root" ("Result: " +:+ py_str_rows rows
                                +:+ " contains more than 1 entry")])).
Proof using Hhook.
  intros Hrows Hlen. unfold Plugins.get_sql_value. run_query Hhook Hrows.
  apply Nat.ltb_lt in Hlen. rewrite Hlen. reflexivity.
Qed.

Lemma plugin_wrong_columns (row : list V) :
  hook_get_records env hook sql = Ok [row] ->
  length row <> 1%nat ->
  Plugins.get_sql_value env conn_id sql m
    = (Raise (mkExc ValueError not_one_column_msg),
       mkMachine (self m)
         ((trace m ++ [EvQuery hook sql])
            ++ [EvLog "root" ("Result: " +:+ py_str_row row
                                +:+ " does not contain exactly 1 column")])).
Proof using Hhook.
  intros Hrows Hlen. unfold Plugins.get_sql_value. run_query Hhook Hrows.
  apply Nat.eqb_neq in Hlen. cbn. rewrite Hlen. reflexivity.
Qed.
End PluginQueryFacts.

Section OperatorQueryFacts.
Context {V : Type} `{PyRuntime V}.
Variable env : Airflow V.
Variables (conn_id sql : string) (hook : Hook).
Variable m : Machine (Operators.Operator (V := V)) V.
Hypothesis Hhook : Operators.resolve_hook env (self m) conn_id = Ok hook.

Lemma operator_single_cell (v : V) :
  hook_get_records env hook sql = Ok [[v]] ->
  Operators.get_sql_value env conn_id sql m
    = (Ok v, mkMachine (self m) (trace m ++ [EvQuery hook sql])).
Proof using Hhook.
  intros Hrows. unfold Operators.get_sql_value. run_query Hhook Hrows.
  reflexivity.
Qed.

Lemma operator_no_rows :
  hook_get_records env hook sql = Ok [] ->
  Operators.get_sql_value env conn_id sql m
    = (Raise (mkExc ValueError no_result_msg),
       mkMachine (self m) (trace m ++ [EvQuery hook sql])).
Proof using Hhook.
  intros Hrows. unfold Operators.get_sql_value. run_query Hhook Hrows.
  reflexivity.
Qed.

Lemma operator_many_rows (rows : list (list V)) :
  hook_get_records env hook sql = Ok rows ->
  (1 < length rows)%nat ->
  Operators.get_sql_value env conn_id sql m
    = (Raise (mkExc ValueError more_than_one_msg),
       mkMachine (self m)
         ((trace m ++ [EvQuery hook sql])
            ++ [EvLog "root" ("Result: " +:+ py_str_rows rows
                                +:+ " contains more than 1 entry")])).
Proof using Hhook.
  intros Hrows Hlen. unfold Operators.get_sql_value. run_query Hhook Hrows.
  apply Nat.ltb_lt in Hlen. rewrite Hlen. reflexivity.
Qed.

Lemma operator_wrong_columns (row : list V) :
  hook_get_records env hook sql = Ok [row] ->
  length row <> 1%nat ->
  Operators.get_sql_value env conn_id sql m
    = (Raise (mkExc ValueError not_one_column_msg),
       mkMachine (self m)
         ((trace m ++ [EvQuery hook sql])
            ++ [EvLog "root" ("Result: " +:+ py_str_row row
                                +:+ " does not contain exactly 1 column")])).
Proof using Hhook.
  intros Hrows Hlen. unfold Operators.get_sql_value. run_query Hhook Hrows.
  apply Nat.eqb_neq in Hlen. cbn. rewrite Hlen. reflexivity.
Qed.
End OperatorQueryFacts.

(** C2: when the query's result is exactly one row of exactly one
    column, [get_sql_value] returns that cell, the very value the hook
    delivered; this holds for the module-level function of the plugin
    and for the operator's method. *)
Theorem get_sql_value_returns_single_cell
    {V : Type} `{PyRuntime V} (env : Airflow V) (conn_id sql : string) (v : V) :
  (forall (Self : Type) (m : Machine Self V) (hook : Hook),
      Plugins._get_hook env conn_id = Ok hook ->
      hook_get_records env hook sql = Ok [[v]] ->
      fst (Plugins.get_sql_value env conn_id sql m) = Ok v)
  /\ (forall (m : Machine Operators.Operator V) (hook : Hook),
      Operators.resolve_hook env (self m) conn_id = Ok hook ->
      hook_get_records env hook sql = Ok [[v]] ->
      fst (Operators.get_sql_value env conn_id sql m) = Ok v).
Proof.
  split; intros.
  - erewrite plugin_single_cell by eassumption. reflexivity.
  - erewrite operator_single_cell by eassumption. reflexivity.
Qed.

(** The cell [12] of the query [SELECT 12], through
    [get_sql_value_returns_single_cell], on a Postgres connection for the
    plugin and on a BigQuery connection for the operator. *)
Lemma get_sql_value_returns_single_cell_witness :
  fst (Plugins.get_sql_value demo_env "pg" "SELECT 12" (mkMachine tt []))
    = Ok (VInt 12)
  /\ fst (Operators.get_sql_value demo_env "bq" "SELECT 12"
            (mkMachine (demo_operator None) []))
    = Ok (VInt 12).
Proof.
  split.
  - apply (proj1 (get_sql_value_returns_single_cell
                    demo_env "pg" "SELECT 12" (VInt 12))
             unit (mkMachine tt []) (PostgresHook "pg"));
      vm_compute; reflexivity.
  - apply (proj2 (get_sql_value_returns_single_cell
                    demo_env "bq" "SELECT 12" (VInt 12))
             (mkMachine (demo_operator None) []) (BigQueryHook "bq" false));
      vm_compute; reflexivity.
Defined.

(** The three messages differ from one another. *)
Lemma shape_messages_distinct :
  String.eqb no_result_msg more_than_one_msg = false
  /\ String.eqb no_result_msg not_one_column_msg = false
  /\ String.eqb more_than_one_msg not_one_column_msg = false.
Proof. repeat split; vm_compute; reflexivity. Qed.

(** C3, as the code has it: a result with no row, with more than one
    row, or with one row whose number of columns is not one makes
    [get_sql_value] raise; all three raise the same kind of error,
    [ValueError], and are told apart by their messages only, which are
    pairwise different. *)
Theorem get_sql_value_shape_errors
    {V : Type} `{PyRuntime V} (env : Airflow V) (conn_id sql : string) :
  (forall (Self : Type) (m : Machine Self V) (hook : Hook) (rows : list (list V)),
      Plugins._get_hook env conn_id = Ok hook ->
      hook_get_records env hook sql = Ok rows ->
      (rows = [] ->
       fst (Plugins.get_sql_value env conn_id sql m)
         = Raise (mkExc ValueError no_result_msg))
      /\ ((1 < length rows)%nat ->
       fst (Plugins.get_sql_value env conn_id sql m)
         = Raise (mkExc ValueError more_than_one_msg))
      /\ (forall row, rows = [row] -> length row <> 1%nat ->
       fst (Plugins.get_sql_value env conn_id sql m)
         = Raise (mkExc ValueError not_one_column_msg)))
  /\ (forall (m : Machine Operators.Operator V) (hook : Hook) (rows : list (list V)),
      Operators.resolve_hook env (self m) conn_id = Ok hook ->
      hook_get_records env hook sql = Ok rows ->
      (rows = [] ->
       fst (Operators.get_sql_value env conn_id sql m)
         = Raise (mkExc ValueError no_result_msg))
      /\ ((1 < length rows)%nat ->
       fst (Operators.get_sql_value env conn_id sql m)
         = Raise (mkExc ValueError more_than_one_msg))
      /\ (forall row, rows = [row] -> length row <> 1%nat ->
       fst (Operators.get_sql_value env conn_id sql m)
         = Raise (mkExc ValueError not_one_column_msg)))
  /\ (String.eqb no_result_msg more_than_one_msg = false
      /\ String.eqb no_result_msg not_one_column_msg = false
      /\ String.eqb more_than_one_msg not_one_column_msg = false).
Proof.
  split; [|split; [|apply shape_messages_distinct]].
  - intros Self m hook rows Hhook Hrows. repeat split.
    + intros ->. erewrite plugin_no_rows by eassumption. reflexivity.
    + intros Hlen. erewrite plugin_many_rows by eassumption. reflexivity.
    + intros row -> Hlen. erewrite plugin_wrong_columns by eassumption. reflexivity.
  - intros m hook rows Hhook Hrows. repeat split.
    + intros ->. erewrite operator_no_rows by eassumption. reflexivity.
    + intros Hlen. erewrite operator_many_rows by eassumption. reflexivity.
    + intros row -> Hlen. erewrite operator_wrong_columns by eassumption. reflexivity.
Qed.

(** The three wrong shapes on a Postgres connection, through
    [get_sql_value_shape_errors]. *)
Lemma get_sql_value_shape_errors_witness :
  fst (Plugins.get_sql_value demo_env "pg" "SELECT 1 WHERE false" (mkMachine tt []))
    = Raise (mkExc ValueError no_result_msg)
  /\ fst (Plugins.get_sql_value demo_env "pg" "SELECT v FROM t" (mkMachine tt []))
    = Raise (mkExc ValueError more_than_one_msg)
  /\ fst (Plugins.get_sql_value demo_env "pg" "SELECT 1, 2" (mkMachine tt []))
    = Raise (mkExc ValueError not_one_column_msg).
Proof.
  split; [|split].
  - apply (proj1 (proj1 (get_sql_value_shape_errors demo_env "pg" "SELECT 1 WHERE false")
                    unit (mkMachine tt []) (PostgresHook "pg") []
                    ltac:(vm_compute; reflexivity) ltac:(vm_compute; reflexivity))).
    reflexivity.
  - apply (proj1 (proj2 (proj1 (get_sql_value_shape_errors demo_env "pg" "SELECT v FROM t")
                    unit (mkMachine tt []) (PostgresHook "pg") [[VInt 1]; [VInt 2]]
                    ltac:(vm_compute; reflexivity) ltac:(vm_compute; reflexivity)))).
    simpl. lia.
  - apply (proj2 (proj2 (proj1 (get_sql_value_shape_errors demo_env "pg" "SELECT 1, 2")
                    unit (mkMachine tt []) (PostgresHook "pg") [[VInt 1; VInt 2]]
                    ltac:(vm_compute; reflexivity) ltac:(vm_compute; reflexivity)))
             [VInt 1; VInt 2]).
    + reflexivity.
    + simpl. lia.
Defined.

(** C3, as the claim words it, fails: the three wrong shapes do not raise
    three kinds of error. No row, two rows and a row of two
    columns all raise errors of one and the same class. *)
Lemma shape_errors_share_one_kind :
  exists e_none e_many e_wide : Exc,
    fst (Plugins.get_sql_value demo_env "pg" "SELECT 1 WHERE false" (mkMachine tt []))
      = Raise e_none
    /\ fst (Plugins.get_sql_value demo_env "pg" "SELECT v FROM t" (mkMachine tt []))
      = Raise e_many
    /\ fst (Plugins.get_sql_value demo_env "pg" "SELECT 1, 2" (mkMachine tt []))
      = Raise e_wide
    /\ exc_class e_none = exc_class e_many
    /\ exc_class e_many = exc_class e_wide
    /\ exc_class e_none = ValueError.
Proof.
  exists (mkExc ValueError no_result_msg),
         (mkExc ValueError more_than_one_msg),
         (mkExc ValueError not_one_column_msg).
  repeat split; vm_compute; reflexivity.
Qed.

(** ** Connection resolution *)

Section ResolutionFacts.
Context {V : Type} `{PyRuntime V}.
Variable env : Airflow V.
Variables (conn_id : string) (conn : Connection).
Hypothesis Hconn : connections env !! conn_id = Some conn.

Lemma get_connection_found : get_connection env conn_id = Ok conn.
Proof using Hconn. unfold get_connection. now rewrite Hconn. Qed.

Lemma plugin_hook_unsupported :
  conn_type conn <> "postgres" ->
  conn_type conn <> "mysql" ->
  conn_type conn <> "hive" ->
  Plugins._get_hook env conn_id
    = Raise (mkExc ValueError (Plugins.unsupported_msg (conn_type conn))).
Proof using Hconn.
  intros Hp Hm Hh. unfold Plugins._get_hook.
  rewrite get_connection_found. cbn [res_bind].
  apply String.eqb_neq in Hp, Hm, Hh. now rewrite Hp, Hm, Hh.
Qed.

Lemma plugin_hook_supported (kind : string) :
  conn_type conn = kind ->
  Plugins._get_hook env conn_id
    = if String.eqb kind "postgres" then Ok (PostgresHook conn_id)
      else if String.eqb kind "mysql" then Ok (MySqlHook conn_id)
      else if String.eqb kind "hive" then Ok (HiveServer2Hook conn_id)
      else Raise (mkExc ValueError (Plugins.unsupported_msg kind)).
Proof using Hconn.
  intros <-. unfold Plugins._get_hook.
  rewrite get_connection_found. reflexivity.
Qed.

Lemma operator_hook_bigquery (me : Operators.Operator) :
  conn_type conn = "google_cloud_platform" ->
  Operators.resolve_hook env me conn_id
    = Ok (BigQueryHook conn_id (Operators.use_legacy_sql me)).
Proof using Hconn.
  intros Hk. unfold Operators.resolve_hook.
  rewrite get_connection_found. cbn [res_bind]. now rewrite Hk.
Qed.

Lemma operator_hook_delegated (me : Operators.Operator) :
  conn_type conn <> "google_cloud_platform" ->
  Operators.resolve_hook env me conn_id = base_get_hook env conn_id.
Proof using Hconn.
  intros Hk. unfold Operators.resolve_hook.
  rewrite get_connection_found. cbn [res_bind].
  apply String.eqb_neq in Hk. now rewrite Hk.
Qed.
End ResolutionFacts.

Lemma unsupported_msg_names_kind (kind : string) :
  contains (Plugins.unsupported_msg kind) kind.
Proof.
  unfold Plugins.unsupported_msg.
  exists ("Connection type of " +:+ dquote), (dquote +:+ " not currently supported").
  now rewrite !str_app_assoc.
Qed.

(** The constructor stores the SQL-mode flag it is given. *)
Lemma init_keeps_use_legacy_sql {V : Type} `{PyRuntime V} (env : Airflow V)
    (task_id sql conn_id : string) (push_conn_id check_description : option string)
    (legacy : bool) (writer : option MessageWriter)
    (check_args : option (gmap string V)) (me : Operators.Operator) :
  Operators.__init__ env task_id sql conn_id push_conn_id check_description
                     legacy writer check_args = Ok me ->
  Operators.use_legacy_sql me = legacy.
Proof.
  unfold Operators.__init__.
  destruct (Operators.resolve_description _ _); cbn [res_bind]; [|discriminate].
  destruct (str_format _ _); cbn [res_bind]; [|discriminate].
  destruct (base_operator_init _ _); cbn [res_bind]; [|discriminate].
  now intros [= <-].
Qed.

(** C4: for a connection whose backend kind is none of the supported
    ones, resolution fails with an error whose message names that kind,
    and it fails before any query is sent: the call of [get_sql_value]
    leaves the trace as it found it. In the operator version the kinds
    and the error are those of Airflow's [BaseHook.get_hook]; its error
    too is raised before any query. *)
Theorem unsupported_backend_fails_before_query
    {V : Type} `{PyRuntime V} (env : Airflow V)
    (conn_id sql : string) (conn : Connection) :
  connections env !! conn_id = Some conn ->
  conn_type conn <> "postgres" ->
  conn_type conn <> "mysql" ->
  conn_type conn <> "hive" ->
  Plugins._get_hook env conn_id
    = Raise (mkExc ValueError (Plugins.unsupported_msg (conn_type conn)))
  /\ contains (Plugins.unsupported_msg (conn_type conn)) (conn_type conn)
  /\ (forall (Self : Type) (m : Machine Self V),
        Plugins.get_sql_value env conn_id sql m
          = (Raise (mkExc ValueError (Plugins.unsupported_msg (conn_type conn))), m))
  /\ (forall (m : Machine Operators.Operator V) (e : Exc),
        conn_type conn <> "google_cloud_platform" ->
        base_get_hook env conn_id = Raise e ->
        Operators.get_sql_value env conn_id sql m = (Raise e, m)).
Proof.
  intros Hconn Hp Hm Hh.
  pose proof (plugin_hook_unsupported env conn_id conn Hconn Hp Hm Hh) as Hhook.
  split; [exact Hhook|].
  split; [apply unsupported_msg_names_kind|].
  split.
  - intros Self m. unfold Plugins.get_sql_value. run_monad.
    rewrite Hhook. now destruct m.
  - intros m e Hk Hbase. unfold Operators.get_sql_value. run_monad.
    rewrite (operator_hook_delegated env conn_id conn Hconn _ Hk), Hbase.
    now destruct m.
Qed.

(** An Oracle connection, through
    [unsupported_backend_fails_before_query]: the error names
    [oracle] and the trace stays empty. *)
Lemma unsupported_backend_fails_before_query_witness :
  Plugins._get_hook demo_env "ora"
    = Raise (mkExc ValueError (Plugins.unsupported_msg "oracle"))
  /\ contains (Plugins.unsupported_msg "oracle") "oracle"
  /\ Plugins.get_sql_value demo_env "ora" "SELECT 12" (mkMachine tt [])
    = (Raise (mkExc ValueError (Plugins.unsupported_msg "oracle")), mkMachine tt [])
  /\ Operators.get_sql_value demo_env "ora" "SELECT 12"
       (mkMachine (demo_operator None) [])
    = (Raise (mkExc AirflowException "Unknown hook type"),
       mkMachine (demo_operator None) []).
Proof.
  pose proof (unsupported_backend_fails_before_query
                demo_env "ora" "SELECT 12" (mkConnection "oracle")
                ltac:(vm_compute; reflexivity)
                ltac:(discriminate) ltac:(discriminate) ltac:(discriminate))
    as (Hhook & Hname & Hplugin & Hoperator).
  split; [exact Hhook|].
  split; [exact Hname|].
  split; [apply Hplugin|].
  apply Hoperator; [discriminate | vm_compute; reflexivity].
Defined.

(** ** The operator is read, never written *)

Section Frame.
Context {Self V : Type}.

Lemma keeps_self_ret {A} (a : A) : keeps_self (Self := Self) (V := V) (ret a).
Proof. intros m. reflexivity. Qed.

Lemma keeps_self_raise {A} cls msg :
  keeps_self (Self := Self) (V := V) (A := A) (raise cls msg).
Proof. intros m. reflexivity. Qed.

Lemma keeps_self_lift {A} (r : Res A) : keeps_self (Self := Self) (V := V) (lift r).
Proof. intros m. reflexivity. Qed.

Lemma keeps_self_emit (e : Event V) : keeps_self (Self := Self) (emit e).
Proof. intros m. reflexivity. Qed.

Lemma keeps_self_ask : keeps_self (Self := Self) (V := V) ask.
Proof. intros m. reflexivity. Qed.

End Frame.

Create HintDb frame.
#[export] Hint Resolve keeps_self_ret keeps_self_raise keeps_self_lift
  keeps_self_emit keeps_self_ask : frame.


Section OperatorFrame.
Context {V : Type} `{PyRuntime V}.
Variable env : Airflow V.



End OperatorFrame.

(** ** [push] *)

Section PushFacts.
Context {V : Type} `{PyRuntime V}.
Variable env : Airflow V.
Variable info : list (string * V).
Variable m : Machine (Operators.Operator (V := V)) V.

Lemma push_without_writer :
  Operators.message_writer (self m) = None ->
  Operators.push env info m
    = (Ok tt, mkMachine (self m) (trace m ++ [push_log_line info m])).
Proof.
  intros Hw. unfold Operators.push. run_monad. now rewrite Hw.
Qed.

Lemma push_with_writer (writer : MessageWriter) :
  Operators.message_writer (self m) = Some writer ->
  Operators.push env info m
    = (writer_send_message env writer info,
       mkMachine (self m)
         ((trace m ++ [push_log_line info m]) ++ [EvSendMessage writer info])).
Proof.
  intros Hw. unfold Operators.push. run_monad. now rewrite Hw.
Qed.
End PushFacts.

(** C7, as the code has it: without a message writer, [push] produces
    the log line and nothing else; with a message writer configured, it
    hands the record to the writer after the log line, whatever the
    record says about the outcome. *)
Theorem push_logs_then_forwards_to_writer
    {V : Type} `{PyRuntime V} (env : Airflow V) (info : list (string * V))
    (m : Machine Operators.Operator V) :
  (Operators.message_writer (self m) = None ->
     Operators.push env info m
       = (Ok tt, mkMachine (self m) (trace m ++ [push_log_line info m])))
  /\ (forall writer : MessageWriter,
     Operators.message_writer (self m) = Some writer ->
     Operators.push env info m
       = (writer_send_message env writer info,
          mkMachine (self m)
            ((trace m ++ [push_log_line info m])
               ++ [EvSendMessage writer info]))).
Proof.
  split.
  - apply push_without_writer.
  - apply push_with_writer.
Qed.

(** A passing record pushed without and with a writer, through
    [push_logs_then_forwards_to_writer]. *)
Lemma push_logs_then_forwards_to_writer_witness :
  List.filter is_sink_call
    (trace (snd (Operators.push demo_env demo_passing_info
                   (mkMachine (demo_operator None) []))))
    = []
  /\ List.filter is_sink_call
       (trace (snd (Operators.push demo_env demo_failing_info
                      (mkMachine (demo_operator (Some (mkWriter "dq_store"))) []))))
    = [EvSendMessage (mkWriter "dq_store") demo_failing_info].
Proof.
  split.
  - rewrite (proj1 (push_logs_then_forwards_to_writer demo_env demo_passing_info
                      (mkMachine (demo_operator None) []))
               eq_refl).
    reflexivity.
  - rewrite (proj2 (push_logs_then_forwards_to_writer demo_env demo_failing_info
                      (mkMachine (demo_operator (Some (mkWriter "dq_store"))) []))
               (mkWriter "dq_store") eq_refl).
    reflexivity.
Defined.

(** C7, as the claim words it, fails: a record whose [within_threshold]
    is [True], pushed by an operator that has a message writer, reaches
    the writer. *)
Lemma push_passing_result_reaches_writer :
  dict_get demo_passing_info "within_threshold" = VBool true
  /\ List.filter is_sink_call
       (trace (snd (Operators.push demo_env demo_passing_info
                      (mkMachine (demo_operator (Some (mkWriter "dq_store"))) []))))
     = [EvSendMessage (mkWriter "dq_store") demo_passing_info].
Proof. split; vm_compute; reflexivity. Qed.

(** ** [send_failure_notification] *)

Section FailureFacts.
Context {V : Type} `{PyRuntime V}.
Variable me : Operators.Operator (V := V).
Variable info : list (string * V).

Lemma failure_template_filled (rounded : V) :
  py_round (dict_get info "result") 2 = Ok rounded ->
  res_bind (Operators.failure_kwargs me info)
           (str_format Operators.failure_template)
    = Ok (failure_body
            (Operators.task_id me) (Operators.dag_id me)
            (py_str (dict_get info "description"))
            (py_str (dict_get info "execution_date"))
            (Operators.sql me) (py_str rounded)
            (py_str (dict_get info "min_threshold"))
            (py_str (dict_get info "max_threshold"))).
Proof.
  intros Hround. unfold Operators.failure_kwargs. rewrite Hround.
  cbn [res_bind].
  transitivity
    (Ok (A := string)
        (failure_body
           (py_str (py_of_str (Operators.task_id me)))
           (py_str (py_of_str (Operators.dag_id me)))
           (py_str (dict_get info "description"))
           (py_str (py_of_str (py_str (dict_get info "execution_date"))))
           (py_str (py_of_str (Operators.sql me))) (py_str rounded)
           (py_str (dict_get info "min_threshold"))
           (py_str (dict_get info "max_threshold")))).
  - vm_compute. reflexivity.
  - now rewrite !py_str_of_str.
Qed.

Lemma send_failure_notification_rounded {A} (rounded : V)
    (tr : list (Event V)) :
  py_round (dict_get info "result") 2 = Ok rounded ->
  Operators.send_failure_notification (A := A) info (mkMachine me tr)
    = (Raise (mkExc AirflowException
                (failure_body
                   (Operators.task_id me) (Operators.dag_id me)
                   (py_str (dict_get info "description"))
                   (py_str (dict_get info "execution_date"))
                   (Operators.sql me) (py_str rounded)
                   (py_str (dict_get info "min_threshold"))
                   (py_str (dict_get info "max_threshold")))),
       mkMachine me tr).
Proof.
  intros Hround. pose proof (failure_template_filled rounded Hround) as Hbody.
  unfold Operators.send_failure_notification. run_monad.
  destruct (Operators.failure_kwargs me info) as [kwargs|e];
    cbn [res_bind] in Hbody; [|discriminate].
  now rewrite Hbody.
Qed.

Lemma send_failure_notification_unrounded {A} (e : Exc)
    (tr : list (Event V)) :
  py_round (dict_get info "result") 2 = Raise e ->
  Operators.send_failure_notification (A := A) info (mkMachine me tr)
    = (Raise e, mkMachine me tr).
Proof.
  intros Hround. unfold Operators.send_failure_notification. run_monad.
  unfold Operators.failure_kwargs. now rewrite Hround.
Qed.
End FailureFacts.

Ltac in_pieces := unfold failure_body; apply contains_join_pieces; simpl; tauto.

(** C6: [send_failure_notification] never returns normally, and it
    touches neither log nor sink. When the measured value can be
    rounded, what it raises is an [AirflowException] whose message
    contains the check identifier, the description, the measured value
    rounded to two places, both thresholds, the SQL text and the
    execution date. *)
Theorem send_failure_notification_raises
    {V : Type} `{PyRuntime V} (A : Type) (info : list (string * V))
    (m : Machine Operators.Operator V) :
  is_ok (fst (Operators.send_failure_notification (A := A) info m)) = false
  /\ snd (Operators.send_failure_notification (A := A) info m) = m
  /\ (forall rounded : V,
        py_round (dict_get info "result") 2 = Ok rounded ->
        exists body : string,
          fst (Operators.send_failure_notification (A := A) info m)
            = Raise (mkExc AirflowException body)
          /\ contains body (Operators.task_id (self m))
          /\ contains body (py_str (dict_get info "description"))
          /\ contains body (py_str rounded)
          /\ contains body (py_str (dict_get info "min_threshold"))
          /\ contains body (py_str (dict_get info "max_threshold"))
          /\ contains body (Operators.sql (self m))
          /\ contains body (py_str (dict_get info "execution_date"))).
Proof.
  destruct m as [me tr]. cbn [self].
  split; [|split].
  - destruct (py_round (dict_get info "result") 2) as [rounded|e] eqn:Hround.
    + now rewrite (send_failure_notification_rounded me info rounded tr Hround).
    + now rewrite (send_failure_notification_unrounded me info e tr Hround).
  - destruct (py_round (dict_get info "result") 2) as [rounded|e] eqn:Hround.
    + now rewrite (send_failure_notification_rounded me info rounded tr Hround).
    + now rewrite (send_failure_notification_unrounded me info e tr Hround).
  - intros rounded Hround.
    rewrite (send_failure_notification_rounded me info rounded tr Hround).
    eexists. split; [reflexivity|].
    repeat split; in_pieces.
Qed.

(** The failing example check, through
    [send_failure_notification_raises]: the message carries
    [row_count], the rounded value [12] and the thresholds [50] and
    [75]. *)
Lemma send_failure_notification_raises_witness :
  exists body : string,
    fst (Operators.send_failure_notification (A := unit) demo_failing_info
           (mkMachine (demo_operator None) []))
      = Raise (mkExc AirflowException body)
    /\ contains body "row_count"
    /\ contains body "rows loaded"
    /\ contains body "12"
    /\ contains body "50"
    /\ contains body "75"
    /\ contains body "SELECT 12"
    /\ contains body "2019-08-01".
Proof.
  exact (proj2 (proj2 (send_failure_notification_raises
                         unit demo_failing_info
                         (mkMachine (demo_operator None) [])))
           (VInt 12) eq_refl).
Defined.

(** ** Construction *)

Section InitFacts.
Context {V : Type} `{PyRuntime V}.
Variable env : Airflow V.
Variables (task_id sql conn_id : string).
Variables (push_conn_id check_description : option string).
Variables (legacy : bool) (writer : option MessageWriter).
Variable check_args : option (gmap string V).

End InitFacts.




(** C10, as the code has it: without [check_args] (omitted or [None])
    the mapping is the empty one; without [check_description] the
    description stays [None], no substitution is attempted for it and it
    raises nothing, so that construction fails only where the identifier
    or the base class fails; and an identifier template without any
    brace character is left as it is. *)
Theorem construction_defaults
    {V : Type} `{PyRuntime V} (env : Airflow V) :
  Operators.resolve_check_args None = (∅ : gmap string V)
  /\ (forall args : gmap string V,
        Operators.resolve_description None args = Ok None)
  /\ (forall (t : string) (kwargs : gmap string V),
        brace_free t = true -> str_format t kwargs = Ok t)
  /\ (forall task_id sql conn_id push_conn_id legacy writer check_args,
        Operators.__init__ env task_id sql conn_id push_conn_id None
                           legacy writer check_args
          = res_bind (str_format task_id (Operators.resolve_check_args check_args))
              (fun task_id' =>
               res_bind (base_operator_init env task_id') (fun dag =>
               Ok {| Operators.task_id := task_id';
                     Operators.dag_id := dag;
                     Operators.conn_id := conn_id;
                     Operators.push_conn_id := push_conn_id;
                     Operators.sql := sql;
                     Operators.use_legacy_sql := legacy;
                     Operators.message_writer := writer;
                     Operators.dq_check_args :=
                       Operators.resolve_check_args check_args;
                     Operators.check_description := None |})))
  /\ (forall task_id sql conn_id push_conn_id legacy writer dag,
        brace_free task_id = true ->
        base_operator_init env task_id = Ok dag ->
        Operators.__init__ env task_id sql conn_id push_conn_id None
                           legacy writer None
          = Ok {| Operators.task_id := task_id;
                  Operators.dag_id := dag;
                  Operators.conn_id := conn_id;
                  Operators.push_conn_id := push_conn_id;
                  Operators.sql := sql;
                  Operators.use_legacy_sql := legacy;
                  Operators.message_writer := writer;
                  Operators.dq_check_args := ∅;
                  Operators.check_description := None |}).
Proof.
  split; [reflexivity|].
  split; [reflexivity|].
  split; [apply @str_format_brace_free|].
  split; [reflexivity|].
  intros task_id sql conn_id push_conn_id legacy writer dag Hbf Hbase.
  unfold Operators.__init__. cbn [Operators.resolve_description str_truthy res_bind].
  change (Operators.resolve_check_args None) with (∅ : gmap string V).
  rewrite (str_format_brace_free task_id ∅ Hbf). cbn [res_bind].
  now rewrite Hbase.
Qed.

(** The test suite's construction, [task_id="test"] with neither
    arguments nor description, through [construction_defaults]. *)
Lemma construction_defaults_witness :
  Operators.__init__ demo_env "test" "SELECT MIN(value) FROM test;" "postgres"
                     None None false None None
    = Ok {| Operators.task_id := "test";
            Operators.dag_id := "dq_dag";
            Operators.conn_id := "postgres";
            Operators.push_conn_id := None;
            Operators.sql := "SELECT MIN(value) FROM test;";
            Operators.use_legacy_sql := false;
            Operators.message_writer := None;
            Operators.dq_check_args := ∅;
            Operators.check_description := None |}.
Proof.
  apply (proj2 (proj2 (proj2 (proj2 (construction_defaults demo_env))))).
  - reflexivity.
  - reflexivity.
Defined.

(** C10, as the claim words it, fails: a template can be free of
    placeholders and still not be left as it is. The identifier [a}b]
    has no field, and construction raises the [ValueError] of a single
    closing brace; [a{{b}}] has no field either, and substitution turns
    it into [a{b}]. *)
Lemma placeholder_free_identifier_not_kept :
  has_placeholder "a}b" = false
  /\ Operators.__init__ demo_env "a}b" "SELECT 12" "pg" None None false None None
     = Raise (mkExc ValueError single_close_msg)
  /\ has_placeholder "a{{b}}" = false
  /\ str_format "a{{b}}" (∅ : gmap string PyVal) = Ok "a{b}"
  /\ String.eqb "a{{b}}" "a{b}" = false.
Proof. repeat split; vm_compute; reflexivity. Qed.

(** * Further properties of the two modules *)

(** ** [get_sql_value]: outcomes and effects *)

(** Inspection of the rows, for a hook already at hand: every outcome of
    the plugin's function, with the events it adds. *)
Lemma plugin_outcome {V : Type} `{PyRuntime V} {Self : Type} (env : Airflow V)
    (conn_id sql : string) (hook : Hook) (m : Machine Self V) :
  Plugins._get_hook env conn_id = Ok hook ->
  exists (r : Res V) (logs : list (Event V)),
    Plugins.get_sql_value env conn_id sql m
      = (r, mkMachine (self m) ((trace m ++ [EvQuery hook sql]) ++ logs))
    /\ forallb is_log logs = true
    /\ (forall e, hook_get_records env hook sql = Raise e -> r = Raise e /\ logs = [])
    /\ (forall rows v, hook_get_records env hook sql = Ok rows ->
          r = Ok v -> rows = [[v]]).
Proof.
  intros Hhook.
  destruct (hook_get_records env hook sql) as [rows|e] eqn:Hrows.
  - destruct rows as [|row [|row' rows]].
    + exists (Raise (mkExc ValueError no_result_msg)), [].
      rewrite (plugin_no_rows env conn_id sql hook m Hhook Hrows), app_nil_r.
      repeat split; [discriminate | discriminate].
    + destruct row as [|v [|v' row]].
      * eexists _, [_].
        rewrite (plugin_wrong_columns env conn_id sql hook m Hhook [] Hrows)
          by (simpl; lia).
        repeat split; discriminate.
      * exists (Ok v), [].
        rewrite (plugin_single_cell env conn_id sql hook m Hhook v Hrows), app_nil_r.
        repeat split; [discriminate|].
        intros rows v0 [= <-] [= <-]. reflexivity.
      * eexists _, [_].
        rewrite (plugin_wrong_columns env conn_id sql hook m Hhook _ Hrows)
          by (simpl; lia).
        repeat split; discriminate.
    + eexists _, [_].
      rewrite (plugin_many_rows env conn_id sql hook m Hhook _ Hrows)
        by (simpl; lia).
      repeat split; discriminate.
  - exists (Raise e), [].
    unfold Plugins.get_sql_value. run_monad. rewrite Hhook.
    cbn [fst snd self trace]. rewrite Hrows, app_nil_r.
    split; [reflexivity|]. split; [reflexivity|]. split.
    + intros e' [= <-]. now split.
    + discriminate.
Qed.

(** X1: with the hook resolved and the rows delivered, [get_sql_value]
    returns a value only for a result of exactly one row with exactly
    one column, and then that cell: [Ok v] is the outcome if and only if
    the rows are [[v]]. Both versions. *)
Theorem get_sql_value_ok_iff_single_cell
    {V : Type} `{PyRuntime V} (env : Airflow V) (conn_id sql : string)
    (rows : list (list V)) (v : V) :
  (forall (Self : Type) (m : Machine Self V) (hook : Hook),
      Plugins._get_hook env conn_id = Ok hook ->
      hook_get_records env hook sql = Ok rows ->
      (fst (Plugins.get_sql_value env conn_id sql m) = Ok v <-> rows = [[v]]))
  /\ (forall (m : Machine Operators.Operator V) (hook : Hook),
      Operators.resolve_hook env (self m) conn_id = Ok hook ->
      hook_get_records env hook sql = Ok rows ->
      (fst (Operators.get_sql_value env conn_id sql m) = Ok v <-> rows = [[v]])).
Proof.
  split.
  - intros Self m hook Hhook Hrows. split.
    + intros Hok.
      destruct (plugin_outcome env conn_id sql hook m Hhook)
        as (r & logs & Hrun & _ & _ & Hcell).
      rewrite Hrun in Hok. cbn [fst] in Hok. exact (Hcell rows v Hrows Hok).
    + intros ->. now rewrite (plugin_single_cell env conn_id sql hook m Hhook v Hrows).
  - intros m hook Hhook Hrows. split.
    + intros Hok.
      destruct rows as [|row [|row' rows]].
      * rewrite (operator_no_rows env conn_id sql hook m Hhook Hrows) in Hok.
        discriminate.
      * destruct row as [|x [|x' row]].
        -- rewrite (operator_wrong_columns env conn_id sql hook m Hhook [] Hrows)
             in Hok by (simpl; lia). discriminate.
        -- rewrite (operator_single_cell env conn_id sql hook m Hhook x Hrows) in Hok.
           now injection Hok as ->.
        -- rewrite (operator_wrong_columns env conn_id sql hook m Hhook _ Hrows)
             in Hok by (simpl; lia). discriminate.
      * rewrite (operator_many_rows env conn_id sql hook m Hhook _ Hrows)
          in Hok by (simpl; lia). discriminate.
    + intros ->. now rewrite (operator_single_cell env conn_id sql hook m Hhook v Hrows).
Qed.

(** The query [SELECT 12] returned [12], so its result was the single
    cell [12]: through [get_sql_value_ok_iff_single_cell]. *)
Lemma get_sql_value_ok_iff_single_cell_witness :
  fst (Plugins.get_sql_value demo_env "pg" "SELECT 12" (mkMachine tt []))
    = Ok (VInt 12)
  /\ fst (Operators.get_sql_value demo_env "bq" "SELECT 12"
            (mkMachine (demo_operator None) []))
    = Ok (VInt 12).
Proof.
  split.
  - apply (proj1 (get_sql_value_ok_iff_single_cell
                    demo_env "pg" "SELECT 12" [[VInt 12]] (VInt 12))
             unit (mkMachine tt []) (PostgresHook "pg")
             ltac:(vm_compute; reflexivity) ltac:(vm_compute; reflexivity)).
    reflexivity.
  - apply (proj2 (get_sql_value_ok_iff_single_cell
                    demo_env "bq" "SELECT 12" [[VInt 12]] (VInt 12))
             (mkMachine (demo_operator None) []) (BigQueryHook "bq" false)
             ltac:(vm_compute; reflexivity) ltac:(vm_compute; reflexivity)).
    reflexivity.
Defined.

Lemma logs_hold_no_query_no_sink {V : Type} (logs : list (Event V)) :
  forallb is_log logs = true ->
  List.filter is_query logs = [] /\ List.filter is_sink_call logs = [].
Proof.
  induction logs as [|e logs IH]; [now split|].
  cbn [forallb]. intros Hall. apply andb_true_iff in Hall as [He Hall].
  destruct (IH Hall) as [Hq Hs].
  destruct e; try discriminate. cbn. now rewrite Hq, Hs.
Qed.

(** The operator's counterpart of [plugin_outcome]. *)
Lemma operator_outcome {V : Type} `{PyRuntime V} (env : Airflow V)
    (conn_id sql : string) (hook : Hook) (m : Machine Operators.Operator V) :
  Operators.resolve_hook env (self m) conn_id = Ok hook ->
  exists (r : Res V) (logs : list (Event V)),
    Operators.get_sql_value env conn_id sql m
      = (r, mkMachine (self m) ((trace m ++ [EvQuery hook sql]) ++ logs))
    /\ forallb is_log logs = true
    /\ (forall e, hook_get_records env hook sql = Raise e -> r = Raise e /\ logs = []).
Proof.
  intros Hhook.
  destruct (hook_get_records env hook sql) as [rows|e] eqn:Hrows.
  - destruct rows as [|row [|row' rows]].
    + exists (Raise (mkExc ValueError no_result_msg)), [].
      rewrite (operator_no_rows env conn_id sql hook m Hhook Hrows), app_nil_r.
      split; [reflexivity|]. split; [reflexivity|]. discriminate.
    + destruct row as [|v [|v' row]].
      * eexists _, [_].
        rewrite (operator_wrong_columns env conn_id sql hook m Hhook [] Hrows)
          by (simpl; lia).
        split; [reflexivity|]. split; [reflexivity|]. discriminate.
      * exists (Ok v), [].
        rewrite (operator_single_cell env conn_id sql hook m Hhook v Hrows), app_nil_r.
        split; [reflexivity|]. split; [reflexivity|]. discriminate.
      * eexists _, [_].
        rewrite (operator_wrong_columns env conn_id sql hook m Hhook _ Hrows)
          by (simpl; lia).
        split; [reflexivity|]. split; [reflexivity|]. discriminate.
    + eexists _, [_].
      rewrite (operator_many_rows env conn_id sql hook m Hhook _ Hrows)
        by (simpl; lia).
      split; [reflexivity|]. split; [reflexivity|]. discriminate.
  - exists (Raise e), [].
    unfold Operators.get_sql_value. run_monad. rewrite Hhook.
    cbn [fst snd self trace]. rewrite Hrows, app_nil_r.
    split; [reflexivity|]. split; [reflexivity|].
    intros e' [= <-]. now split.
Qed.

(** X2: once the hook is resolved, a call of [get_sql_value] sends
    exactly one query, the given SQL text to that hook, whatever the
    database answers (rows of any shape, or an error), and calls no
    sink. Both versions. *)
Theorem get_sql_value_sends_exactly_one_query
    {V : Type} `{PyRuntime V} (env : Airflow V) (conn_id sql : string)
    (hook : Hook) :
  (forall (Self : Type) (m : Machine Self V),
      Plugins._get_hook env conn_id = Ok hook ->
      List.filter is_query (trace (snd (Plugins.get_sql_value env conn_id sql m)))
        = List.filter is_query (trace m) ++ [EvQuery hook sql]
      /\ List.filter is_sink_call
           (trace (snd (Plugins.get_sql_value env conn_id sql m)))
        = List.filter is_sink_call (trace m))
  /\ (forall m : Machine Operators.Operator V,
      Operators.resolve_hook env (self m) conn_id = Ok hook ->
      List.filter is_query (trace (snd (Operators.get_sql_value env conn_id sql m)))
        = List.filter is_query (trace m) ++ [EvQuery hook sql]
      /\ List.filter is_sink_call
           (trace (snd (Operators.get_sql_value env conn_id sql m)))
        = List.filter is_sink_call (trace m)).
Proof.
  split.
  - intros Self m Hhook.
    destruct (plugin_outcome env conn_id sql hook m Hhook)
      as (r & logs & -> & Hlogs & _).
    destruct (logs_hold_no_query_no_sink logs Hlogs) as [Hq Hs].
    cbn [snd trace]. rewrite !List.filter_app, Hq, Hs, !app_nil_r.
    now split.
  - intros m Hhook.
    destruct (operator_outcome env conn_id sql hook m Hhook)
      as (r & logs & -> & Hlogs & _).
    destruct (logs_hold_no_query_no_sink logs Hlogs) as [Hq Hs].
    cbn [snd trace]. rewrite !List.filter_app, Hq, Hs, !app_nil_r.
    now split.
Qed.

(** A query with two rows, which fails and is logged, still counts as
    the one query sent: through [get_sql_value_sends_exactly_one_query]. *)
Lemma get_sql_value_sends_exactly_one_query_witness :
  List.filter is_query
    (trace (snd (Plugins.get_sql_value demo_env "pg" "SELECT v FROM t"
                   (mkMachine tt []))))
    = [EvQuery (PostgresHook "pg") "SELECT v FROM t"]
  /\ List.filter is_query
       (trace (snd (Operators.get_sql_value demo_env "bq" "SELECT v FROM t"
                      (mkMachine (demo_operator None) []))))
     = [EvQuery (BigQueryHook "bq" false) "SELECT v FROM t"].
Proof.
  split.
  - exact (proj1 (proj1 (@get_sql_value_sends_exactly_one_query
                           PyVal pyval_runtime demo_env "pg" "SELECT v FROM t"
                           (PostgresHook "pg"))
                    unit (mkMachine tt []) eq_refl)).
  - exact (proj1 (proj2 (@get_sql_value_sends_exactly_one_query
                           PyVal pyval_runtime demo_env "bq" "SELECT v FROM t"
                           (BigQueryHook "bq" false))
                    (mkMachine (demo_operator None) []) eq_refl)).
Defined.

(** X3: an error of the database ([get_records] raising) comes out of
    [get_sql_value] as it is; the query has been sent, nothing is
    logged. Both versions. *)
Theorem get_sql_value_surfaces_database_error
    {V : Type} `{PyRuntime V} (env : Airflow V) (conn_id sql : string)
    (hook : Hook) (e : Exc) :
  hook_get_records env hook sql = Raise e ->
  (forall (Self : Type) (m : Machine Self V),
      Plugins._get_hook env conn_id = Ok hook ->
      Plugins.get_sql_value env conn_id sql m
        = (Raise e, mkMachine (self m) (trace m ++ [EvQuery hook sql])))
  /\ (forall m : Machine Operators.Operator V,
      Operators.resolve_hook env (self m) conn_id = Ok hook ->
      Operators.get_sql_value env conn_id sql m
        = (Raise e, mkMachine (self m) (trace m ++ [EvQuery hook sql]))).
Proof.
  intros Hrows. split.
  - intros Self m Hhook. unfold Plugins.get_sql_value.
    run_query Hhook Hrows. reflexivity.
  - intros m Hhook. unfold Operators.get_sql_value.
    run_query Hhook Hrows. reflexivity.
Qed.

(** A query the example databases reject, through
    [get_sql_value_surfaces_database_error]. *)
Lemma get_sql_value_surfaces_database_error_witness :
  Plugins.get_sql_value demo_env "pg" "SELEC 1" (mkMachine tt [])
    = (Raise (mkExc RuntimeFailure "syntax error"),
       mkMachine tt [EvQuery (PostgresHook "pg") "SELEC 1"]).
Proof.
  exact (proj1 (@get_sql_value_surfaces_database_error
                  PyVal pyval_runtime demo_env "pg" "SELEC 1"
                  (PostgresHook "pg") (mkExc RuntimeFailure "syntax error")
                  eq_refl)
           unit (mkMachine tt []) eq_refl).
Defined.

(** X4: when the connection id cannot be looked up
    ([BaseHook.get_connection] raises), [get_sql_value] raises that
    error and has done nothing else: no hook is asked for, no query
    sent, nothing logged. Both versions. *)
Theorem get_sql_value_unknown_connection
    {V : Type} `{PyRuntime V} (env : Airflow V) (conn_id sql : string) (e : Exc) :
  get_connection env conn_id = Raise e ->
  (forall (Self : Type) (m : Machine Self V),
      Plugins.get_sql_value env conn_id sql m = (Raise e, m))
  /\ (forall m : Machine Operators.Operator V,
      Operators.get_sql_value env conn_id sql m = (Raise e, m)).
Proof.
  intros Hconn. split.
  - intros Self m. unfold Plugins.get_sql_value, Plugins._get_hook.
    run_monad. rewrite Hconn. now destruct m.
  - intros m. unfold Operators.get_sql_value, Operators.resolve_hook.
    run_monad. rewrite Hconn. now destruct m.
Qed.

(** A connection id the example installation does not know, through
    [get_sql_value_unknown_connection]. *)
Lemma get_sql_value_unknown_connection_witness :
  Plugins.get_sql_value demo_env "nowhere" "SELECT 12" (mkMachine tt [])
    = (Raise (mkExc AirflowException "The conn_id `nowhere` isn't defined"),
       mkMachine tt [])
  /\ Operators.get_sql_value demo_env "nowhere" "SELECT 12"
       (mkMachine (demo_operator None) [])
     = (Raise (mkExc AirflowException "The conn_id `nowhere` isn't defined"),
        mkMachine (demo_operator None) []).
Proof.
  pose proof (@get_sql_value_unknown_connection PyVal pyval_runtime demo_env
                "nowhere" "SELECT 12"
                (mkExc AirflowException "The conn_id `nowhere` isn't defined")
                ltac:(vm_compute; reflexivity)) as [Hplugin Hoperator].
  split; [apply Hplugin | apply Hoperator].
Defined.

(** ** The plugin's [_get_hook] *)

(** X5: for a known connection, the plugin's [_get_hook] succeeds
    exactly for the kinds [postgres], [mysql] and [hive] (compared as
    written, so [google_cloud_platform] is refused here), a hook it
    returns is built on the connection id it was given, and a failure is
    always the [ValueError] that quotes the kind. *)
Theorem plugin_hook_iff_supported
    {V : Type} (env : Airflow V) (conn_id : string) (conn : Connection) :
  connections env !! conn_id = Some conn ->
  is_ok (Plugins._get_hook env conn_id) = plugin_supported (conn_type conn)
  /\ (forall hook, Plugins._get_hook env conn_id = Ok hook ->
        hook_conn_id hook = conn_id)
  /\ (forall e, Plugins._get_hook env conn_id = Raise e ->
        e = mkExc ValueError (Plugins.unsupported_msg (conn_type conn)))
  /\ plugin_supported "google_cloud_platform" = false.
Proof.
  intros Hconn. unfold Plugins._get_hook, get_connection, plugin_supported.
  rewrite Hconn. cbn [res_bind].
  destruct (String.eqb (conn_type conn) "postgres");
    [|destruct (String.eqb (conn_type conn) "mysql");
      [|destruct (String.eqb (conn_type conn) "hive")]];
    cbn [is_ok orb].
  all: split; [reflexivity|]; split; [|split; [|reflexivity]].
  all: try (intros hook [= <-]; reflexivity).
  all: try (intros e; discriminate).
  all: now intros e [= <-].
Qed.

(** A Hive and a BigQuery connection, through
    [plugin_hook_iff_supported]. *)
Lemma plugin_hook_iff_supported_witness :
  is_ok (Plugins._get_hook demo_env "hv") = true
  /\ is_ok (Plugins._get_hook demo_env "bq") = false.
Proof.
  split.
  - exact (proj1 (plugin_hook_iff_supported demo_env "hv" (mkConnection "hive")
                    ltac:(vm_compute; reflexivity))).
  - exact (proj1 (plugin_hook_iff_supported demo_env "bq"
                    (mkConnection "google_cloud_platform")
                    ltac:(vm_compute; reflexivity))).
Defined.

(** X6: the two versions of [get_sql_value] differ only in how they
    obtain the hook. Whenever the operator's resolution comes out as the
    plugin's [_get_hook] does (the same hook, or the same error), the
    method and the function return the same result and add the same
    events. *)
Theorem get_sql_value_versions_agree
    {V : Type} `{PyRuntime V} (env : Airflow V) (conn_id sql : string)
    (m : Machine Operators.Operator V) :
  Operators.resolve_hook env (self m) conn_id = Plugins._get_hook env conn_id ->
  Operators.get_sql_value env conn_id sql m
    = Plugins.get_sql_value env conn_id sql m.
Proof.
  intros Hsame. unfold Operators.get_sql_value, Plugins.get_sql_value.
  run_monad. now rewrite Hsame.
Qed.

(** A Postgres connection on an installation whose [get_hook] builds a
    [PostgresHook], through [get_sql_value_versions_agree]. *)
Lemma get_sql_value_versions_agree_witness :
  Operators.get_sql_value demo_env_like_plugin "pg" "SELECT 1, 2"
    (mkMachine (demo_operator None) [])
  = Plugins.get_sql_value demo_env_like_plugin "pg" "SELECT 1, 2"
      (mkMachine (demo_operator None) []).
Proof.
  apply (@get_sql_value_versions_agree PyVal pyval_runtime).
  vm_compute. reflexivity.
Defined.

(** ** The log line of [push] *)

Lemma str_app_nil_r (a : string) : a +:+ "" = a.
Proof.
  induction a as [|x a IH]; [reflexivity|]. now rewrite str_app_cons, IH.
Qed.

Section RenderFacts.
Context {V : Type} `{PyRuntime V}.

Lemma render_info_cons (kv kv' : string * V) (rest : list (string * V)) :
  Operators.render_info (kv :: kv' :: rest)
    = info_line kv +:+ newline +:+ Operators.render_info (kv' :: rest).
Proof. reflexivity. Qed.

Lemma render_info_app (info1 info2 : list (string * V)) :
  info1 <> [] -> info2 <> [] ->
  Operators.render_info (info1 ++ info2)
    = Operators.render_info info1 +:+ newline +:+ Operators.render_info info2.
Proof.
  intros Hne1 Hne2. induction info1 as [|kv [|kv' rest] IH]; [congruence| |].
  - destruct info2 as [|kv2 rest2]; [congruence|]. reflexivity.
  - change ((kv :: kv' :: rest) ++ info2) with (kv :: kv' :: (rest ++ info2)).
    rewrite !render_info_cons.
    change (kv' :: rest ++ info2) with ((kv' :: rest) ++ info2).
    rewrite IH by discriminate. now rewrite !str_app_assoc.
Qed.

Lemma render_info_contains (info : list (string * V)) (kv : string * V) :
  In kv info -> contains (Operators.render_info info) (info_line kv).
Proof.
  induction info as [|kv0 [|kv1 rest] IH]; [intros []| |].
  - intros [->|[]]. exists "", "".
    change (Operators.render_info [kv]) with (info_line kv).
    now rewrite str_app_nil_r.
  - intros [->|Hin].
    + rewrite render_info_cons. apply contains_here.
    + rewrite render_info_cons. apply contains_later, contains_later, IH, Hin.
Qed.
End RenderFacts.

(** X7: whatever [push] goes on to do, the first event it adds is its
    log line, and that line names the DAG and carries every entry of the
    dictionary in the form [key: str(item)]. *)
Theorem push_logs_every_entry
    {V : Type} `{PyRuntime V} (env : Airflow V) (info : list (string * V))
    (m : Machine Operators.Operator V) (kv : string * V) :
  In kv info ->
  exists message : string,
    trace (snd (Operators.push env info m)) !! length (trace m)
      = Some (EvLog "base_data_quality_operator" message)
    /\ contains message (Operators.dag_id (self m))
    /\ contains message (fst kv +:+ ": " +:+ py_str (snd kv)).
Proof.
  intros Hin.
  exists ("Log from " +:+ Operators.dag_id (self m) +:+ ":" +:+ newline
            +:+ Operators.render_info info).
  split; [|split].
  - destruct (Operators.message_writer (self m)) as [writer|] eqn:Hw.
    + rewrite (push_with_writer env info m writer Hw). cbn [snd trace].
      rewrite <- app_assoc. now apply list_lookup_middle.
    + rewrite (push_without_writer env info m Hw). cbn [snd trace].
      now apply list_lookup_middle.
  - apply contains_later, contains_here.
  - do 4 apply contains_later. apply (render_info_contains info kv Hin).
Qed.

(** The thresholds of the passing example record in the log line, an
    operator with a writer: through [push_logs_every_entry]. *)
Lemma push_logs_every_entry_witness :
  exists message : string,
    trace (snd (Operators.push demo_env demo_passing_info
                  (mkMachine (demo_operator (Some (mkWriter "dq_store"))) [])))
      !! 0%nat
      = Some (EvLog "base_data_quality_operator" message)
    /\ contains message "dq_dag"
    /\ contains message "max_threshold: 15".
Proof.
  apply (@push_logs_every_entry PyVal pyval_runtime demo_env demo_passing_info
           (mkMachine (demo_operator (Some (mkWriter "dq_store"))) [])
           ("max_threshold", VInt 15)).
  simpl. tauto.
Defined.

(** X8: the rendering that [push] logs keeps the order of the
    dictionary, one line per entry, lines separated (not terminated) by
    a newline: an empty dictionary renders as the empty text, a single
    entry as its line, and the rendering of two dictionaries one after
    the other is the two renderings with one newline between them. *)
Theorem render_info_in_insertion_order
    {V : Type} `{PyRuntime V} (info1 info2 : list (string * V)) :
  Operators.render_info ([] : list (string * V)) = ""
  /\ (forall k (v : V), Operators.render_info [(k, v)] = k +:+ ": " +:+ py_str v)
  /\ (info1 <> [] -> info2 <> [] ->
      Operators.render_info (info1 ++ info2)
        = Operators.render_info info1 +:+ newline +:+ Operators.render_info info2).
Proof.
  split; [reflexivity|]. split; [reflexivity|]. apply render_info_app.
Qed.

(** The first three and the last four entries of the example record,
    through [render_info_in_insertion_order]. *)
Lemma render_info_in_insertion_order_witness :
  Operators.render_info demo_passing_info
    = Operators.render_info (firstn 3 demo_passing_info)
        +:+ newline +:+ Operators.render_info (skipn 3 demo_passing_info).
Proof.
  apply (proj2 (proj2 (@render_info_in_insertion_order PyVal pyval_runtime
                         (firstn 3 demo_passing_info)
                         (skipn 3 demo_passing_info)))).
  - discriminate.
  - discriminate.
Defined.

(** ** [send_failure_notification]: the message and the rounding *)

(** X9: when the measured value cannot be rounded ([round] raises, as
    it does for a dictionary without the key [result], whose value is
    then [None]), [send_failure_notification] raises that error instead
    of the [AirflowException]: no message is built, nothing is logged
    or sent. *)
Theorem send_failure_notification_round_error
    {V : Type} `{PyRuntime V} (A : Type) (info : list (string * V))
    (m : Machine Operators.Operator V) (e : Exc) :
  py_round (dict_get info "result") 2 = Raise e ->
  Operators.send_failure_notification (A := A) info m = (Raise e, m).
Proof.
  intros Hround. destruct m as [me tr].
  apply (send_failure_notification_unrounded me info e tr Hround).
Qed.

(** The example record without [result], through
    [send_failure_notification_round_error]: a [TypeError]. *)
Lemma send_failure_notification_round_error_witness :
  Operators.send_failure_notification (A := unit) demo_info_without_result
    (mkMachine (demo_operator None) [])
  = (Raise (mkExc TypeError "type NoneType doesn't define __round__ method"),
     mkMachine (demo_operator None) []).
Proof.
  apply (@send_failure_notification_round_error PyVal pyval_runtime).
  reflexivity.
Defined.

(** X10: when the measured value can be rounded, the message of the
    [AirflowException] is the template with its fields filled in and
    nothing else: the task id (twice), the DAG id, [str] of the
    description, [str] of the execution date, the SQL text, [str] of the
    rounded value and of the two thresholds, each inserted as it is
    (braces inside a value are not read as fields). In particular the
    message names the DAG. *)
Theorem send_failure_notification_message
    {V : Type} `{PyRuntime V} (A : Type) (info : list (string * V))
    (m : Machine Operators.Operator V) (rounded : V) :
  py_round (dict_get info "result") 2 = Ok rounded ->
  fst (Operators.send_failure_notification (A := A) info m)
    = Raise (mkExc AirflowException
               (failure_body
                  (Operators.task_id (self m)) (Operators.dag_id (self m))
                  (py_str (dict_get info "description"))
                  (py_str (dict_get info "execution_date"))
                  (Operators.sql (self m)) (py_str rounded)
                  (py_str (dict_get info "min_threshold"))
                  (py_str (dict_get info "max_threshold"))))
  /\ contains
       (failure_body
          (Operators.task_id (self m)) (Operators.dag_id (self m))
          (py_str (dict_get info "description"))
          (py_str (dict_get info "execution_date"))
          (Operators.sql (self m)) (py_str rounded)
          (py_str (dict_get info "min_threshold"))
          (py_str (dict_get info "max_threshold")))
       ("DAG: " +:+ Operators.dag_id (self m) +:+ newline).
Proof.
  intros Hround. destruct m as [me tr]. cbn [self]. split.
  - now rewrite (send_failure_notification_rounded me info rounded tr Hround).
  - unfold failure_body. cbn [join_pieces].
    do 9 apply contains_later.
    rewrite <- !str_app_assoc. rewrite !str_app_assoc.
    exists "", (join_pieces
                  [ Operators.indent; "Task_id: "; Operators.task_id me; newline;
                    Operators.indent; "Check description: ";
                    py_str (dict_get info "description"); newline;
                    Operators.indent; "Execution date: ";
                    py_str (dict_get info "execution_date"); newline;
                    Operators.indent; "SQL: "; Operators.sql me; newline;
                    Operators.indent; "Result: "; py_str rounded;
                    " is not within thresholds ";
                    py_str (dict_get info "min_threshold"); newline;
                    Operators.indent; "    and ";
                    py_str (dict_get info "max_threshold"); newline;
                    "        " ]).
    cbn [join_pieces]. now rewrite !str_app_assoc.
Qed.

(** The failing example record, through
    [send_failure_notification_message]. *)
Lemma send_failure_notification_message_witness :
  fst (Operators.send_failure_notification (A := unit) demo_failing_info
         (mkMachine (demo_operator None) []))
    = Raise (mkExc AirflowException
               (failure_body "row_count" "dq_dag" "rows loaded" "2019-08-01"
                             "SELECT 12" "12" "50" "75")).
Proof.
  exact (proj1 (@send_failure_notification_message PyVal pyval_runtime unit
                  demo_failing_info (mkMachine (demo_operator None) [])
                  (VInt 12) eq_refl)).
Defined.

(** ** Construction: substitution of a named parameter *)

Lemma ident_start_not_brace (c : ascii) :
  is_ident_start c = true -> Ascii.eqb c lbrace = false.
Proof.
  intros Hc. destruct (Ascii.eqb_spec c lbrace) as [->|]; [|reflexivity].
  vm_compute in Hc. discriminate.
Qed.

Lemma ident_char_not_rbrace (c : ascii) :
  is_ident_char c = true -> Ascii.eqb c rbrace = false.
Proof.
  intros Hc. destruct (Ascii.eqb_spec c rbrace) as [->|]; [|reflexivity].
  vm_compute in Hc. discriminate.
Qed.

Lemma ident_start_is_char (c : ascii) :
  is_ident_start c = true -> is_ident_char c = true.
Proof. unfold is_ident_char. now intros ->. Qed.

Section FieldFacts.
Context {V : Type} `{PyRuntime V}.
Variable kwargs : gmap string V.

Lemma format_scan_text (p t : string) :
  brace_free p = true ->
  format_scan InText (p +:+ t) kwargs
    = res_bind (format_scan InText t kwargs) (fun r => Ok (p +:+ r)).
Proof.
  induction p as [|c p IH]; intros Hbf.
  - change ("" +:+ t) with t. now destruct (format_scan InText t kwargs).
  - cbn [brace_free] in Hbf.
    apply andb_true_iff in Hbf as [Hc Hp].
    apply andb_true_iff in Hc as [Hl Hr].
    apply negb_true_iff in Hl, Hr.
    rewrite str_app_cons. cbn [format_scan]. rewrite Hl, Hr, (IH Hp).
    now destruct (format_scan InText t kwargs).
Qed.

Lemma format_scan_name (name acc t : string) :
  all_ident_chars name = true ->
  format_scan (InName acc) (name +:+ String rbrace t) kwargs
    = res_bind (lookup_kwarg (acc +:+ name) kwargs) (fun v =>
      res_bind (format_scan InText t kwargs) (fun r => Ok (v +:+ r))).
Proof.
  revert acc. induction name as [|c name IH]; intros acc Hid.
  - change ("" +:+ String rbrace t) with (String rbrace t).
    cbn [format_scan]. rewrite Ascii.eqb_refl. now rewrite str_app_nil_r.
  - cbn [all_ident_chars] in Hid. apply andb_true_iff in Hid as [Hc Hname].
    rewrite str_app_cons. cbn [format_scan].
    rewrite (ident_char_not_rbrace c Hc), Hc, (IH _ Hname).
    now rewrite str_app_assoc.
Qed.

Lemma format_scan_field (name t : string) :
  is_identifier name = true ->
  format_scan InText (String lbrace (name +:+ String rbrace t)) kwargs
    = res_bind (lookup_kwarg name kwargs) (fun v =>
      res_bind (format_scan InText t kwargs) (fun r => Ok (v +:+ r))).
Proof.
  destruct name as [|c name]; [discriminate|].
  cbn [is_identifier]. intros Hid. apply andb_true_iff in Hid as [Hc Hname].
  rewrite str_app_cons. cbn [format_scan].
  change (Ascii.eqb lbrace lbrace) with true. cbn [format_scan].
  rewrite (ident_start_not_brace c Hc), Hc.
  now rewrite (format_scan_name name (String c "") t Hname).
Qed.

(** A template with one field. *)
Lemma str_format_one_field (prefix name suffix : string) :
  brace_free prefix = true ->
  is_identifier name = true ->
  str_format (one_field_template prefix name suffix) kwargs
    = res_bind (lookup_kwarg name kwargs) (fun v =>
      res_bind (str_format suffix kwargs) (fun r => Ok (prefix +:+ v +:+ r))).
Proof.
  intros Hp Hn. unfold str_format, one_field_template.
  rewrite (format_scan_text _ _ Hp), (format_scan_field _ _ Hn).
  destruct (lookup_kwarg name kwargs) as [v|e]; cbn [res_bind]; [|reflexivity].
  now destruct (format_scan InText suffix kwargs).
Qed.
End FieldFacts.

Lemma resolve_check_args_given {V : Type} (args : gmap string V) :
  Operators.resolve_check_args (Some args) = args.
Proof.
  unfold Operators.resolve_check_args, dict_truthy.
  destruct (Nat.eqb (size args) 0) eqn:Hsize; [|reflexivity].
  apply Nat.eqb_eq in Hsize. cbn [negb].
  symmetry. now apply map_size_empty_inv.
Qed.

Lemma one_field_template_truthy (prefix name suffix : string) :
  str_truthy (Some (one_field_template prefix name suffix)) = true.
Proof. unfold one_field_template. now destruct prefix. Qed.

(** X11: a successful construction stores [sql], [conn_id],
    [push_conn_id], [use_legacy_sql] and [message_writer] exactly as
    passed (the SQL text is not substituted, whatever braces it has),
    stores a given [check_args] mapping as it is and the empty mapping
    for [None], and has handed the substituted identifier, not the
    template, to [BaseOperator.__init__]. *)
Theorem init_stores_arguments
    {V : Type} `{PyRuntime V} (env : Airflow V)
    (task_id sql conn_id : string)
    (push_conn_id check_description : option string)
    (legacy : bool) (writer : option MessageWriter)
    (check_args : option (gmap string V)) (me : Operators.Operator) :
  Operators.__init__ env task_id sql conn_id push_conn_id check_description
                     legacy writer check_args = Ok me ->
  Operators.sql me = sql
  /\ Operators.conn_id me = conn_id
  /\ Operators.push_conn_id me = push_conn_id
  /\ Operators.use_legacy_sql me = legacy
  /\ Operators.message_writer me = writer
  /\ Operators.dq_check_args me = default ∅ check_args
  /\ str_format task_id (default ∅ check_args) = Ok (Operators.task_id me)
  /\ base_operator_init env (Operators.task_id me) = Ok (Operators.dag_id me).
Proof.
  assert (Hargs : Operators.resolve_check_args check_args = default ∅ check_args).
  { destruct check_args as [args|]; [apply resolve_check_args_given | reflexivity]. }
  unfold Operators.__init__. rewrite Hargs.
  destruct (Operators.resolve_description _ _) as [d|]; cbn [res_bind]; [|discriminate].
  destruct (str_format _ _) as [t|]; cbn [res_bind]; [|discriminate].
  destruct (base_operator_init _ _) as [dag|] eqn:Hbase; cbn [res_bind]; [|discriminate].
  intros [= <-]. cbn. now rewrite Hbase.
Qed.

(** An SQL text with braces and an empty [check_args], through
    [init_stores_arguments]. *)
Lemma init_stores_arguments_witness :
  Operators.sql
    {| Operators.task_id := "test";
       Operators.dag_id := "dq_dag";
       Operators.conn_id := "pg";
       Operators.push_conn_id := Some "store";
       Operators.sql := "SELECT '{table}' FROM t";
       Operators.use_legacy_sql := true;
       Operators.message_writer := None;
       Operators.dq_check_args := (∅ : gmap string PyVal);
       Operators.check_description := None |}
  = "SELECT '{table}' FROM t".
Proof.
  exact (proj1 (@init_stores_arguments PyVal pyval_runtime demo_env
                  "test" "SELECT '{table}' FROM t" "pg" (Some "store") None
                  true None (Some ∅) _ ltac:(vm_compute; reflexivity))).
Defined.

(** X12: the description is substituted first. When its template
    [prefix{name}suffix] names a parameter that [check_args] lacks,
    construction raises the [KeyError] for that name, whatever the
    identifier template is (well-formed or not): neither the identifier
    nor [BaseOperator.__init__] is reached. *)
Theorem init_description_missing_parameter
    {V : Type} `{PyRuntime V} (env : Airflow V)
    (prefix name suffix : string) (task_id sql conn_id : string)
    (push_conn_id : option string) (legacy : bool)
    (writer : option MessageWriter) (check_args : option (gmap string V)) :
  brace_free prefix = true ->
  is_identifier name = true ->
  default ∅ check_args !! name = None ->
  Operators.__init__ env task_id sql conn_id push_conn_id
                     (Some (one_field_template prefix name suffix))
                     legacy writer check_args
    = Raise (mkExc KeyError (key_error_msg name)).
Proof.
  intros Hp Hn Hmiss.
  assert (Hargs : Operators.resolve_check_args check_args = default ∅ check_args).
  { destruct check_args as [args|]; [apply resolve_check_args_given | reflexivity]. }
  unfold Operators.__init__, Operators.resolve_description.
  rewrite one_field_template_truthy, Hargs.
  rewrite (str_format_one_field _ prefix name suffix Hp Hn).
  unfold lookup_kwarg. now rewrite Hmiss.
Qed.

(** A description over [{table}] without [check_args], next to an
    identifier with a stray brace: through
    [init_description_missing_parameter]. *)
Lemma init_description_missing_parameter_witness :
  Operators.__init__ demo_env "rows}" "SELECT 12" "pg" None
                     (Some (one_field_template "rows in " "table" " counted"))
                     false None None
    = Raise (mkExc KeyError "'table'").
Proof.
  apply (@init_description_missing_parameter PyVal pyval_runtime demo_env
           "rows in " "table" " counted" "rows}" "SELECT 12" "pg" None false
           None None).
  - reflexivity.
  - reflexivity.
  - reflexivity.
Defined.

(** X13: an identifier template [prefix{name}suffix] whose one
    parameter is in [check_args] becomes [prefix], [str] of the
    parameter's value, [suffix]; with no description the constructor
    stores exactly that identifier, registers it with
    [BaseOperator.__init__], and keeps the mapping. *)
Theorem init_substitutes_named_parameter
    {V : Type} `{PyRuntime V} (env : Airflow V)
    (prefix name suffix : string) (sql conn_id : string)
    (push_conn_id : option string) (legacy : bool)
    (writer : option MessageWriter) (args : gmap string V) (v : V)
    (dag : string) :
  brace_free prefix = true ->
  is_identifier name = true ->
  brace_free suffix = true ->
  args !! name = Some v ->
  base_operator_init env (prefix +:+ py_str v +:+ suffix) = Ok dag ->
  Operators.__init__ env (one_field_template prefix name suffix) sql conn_id
                     push_conn_id None legacy writer (Some args)
    = Ok {| Operators.task_id := prefix +:+ py_str v +:+ suffix;
            Operators.dag_id := dag;
            Operators.conn_id := conn_id;
            Operators.push_conn_id := push_conn_id;
            Operators.sql := sql;
            Operators.use_legacy_sql := legacy;
            Operators.message_writer := writer;
            Operators.dq_check_args := args;
            Operators.check_description := None |}.
Proof.
  intros Hp Hn Hs Hv Hbase.
  unfold Operators.__init__.
  rewrite resolve_check_args_given.
  cbn [Operators.resolve_description str_truthy res_bind].
  rewrite (str_format_one_field _ prefix name suffix Hp Hn).
  unfold lookup_kwarg. rewrite Hv. cbn [res_bind].
  rewrite (str_format_brace_free suffix args Hs). cbn [res_bind].
  now rewrite Hbase.
Qed.

(** The identifier [rows_{table}_check] for the table [users], through
    [init_substitutes_named_parameter]. *)
Lemma init_substitutes_named_parameter_witness :
  Operators.__init__ demo_env (one_field_template "rows_" "table" "_check")
                     "SELECT 12" "pg" None None false None
                     (Some demo_check_args)
    = Ok {| Operators.task_id := "rows_users_check";
            Operators.dag_id := "dq_dag";
            Operators.conn_id := "pg";
            Operators.push_conn_id := None;
            Operators.sql := "SELECT 12";
            Operators.use_legacy_sql := false;
            Operators.message_writer := None;
            Operators.dq_check_args := demo_check_args;
            Operators.check_description := None |}.
Proof.
  apply (@init_substitutes_named_parameter PyVal pyval_runtime demo_env
           "rows_" "table" "_check" "SELECT 12" "pg" None false None
           demo_check_args (VStr "users") "dq_dag").
  - reflexivity.
  - reflexivity.
  - reflexivity.
  - vm_compute. reflexivity.
  - reflexivity.
Defined.

(** X14: an identifier template [prefix{name}suffix] whose parameter
    [check_args] lacks (always so when [check_args] is omitted) makes
    construction raise the [KeyError] for that name, provided the
    description is absent or empty; the rest of the template is not
    looked at and [BaseOperator.__init__] is not reached. *)
Theorem init_identifier_missing_parameter
    {V : Type} `{PyRuntime V} (env : Airflow V)
    (prefix name suffix : string) (sql conn_id : string)
    (push_conn_id check_description : option string) (legacy : bool)
    (writer : option MessageWriter) (check_args : option (gmap string V)) :
  brace_free prefix = true ->
  is_identifier name = true ->
  str_truthy check_description = false ->
  default ∅ check_args !! name = None ->
  Operators.__init__ env (one_field_template prefix name suffix) sql conn_id
                     push_conn_id check_description legacy writer check_args
    = Raise (mkExc KeyError (key_error_msg name)).
Proof.
  intros Hp Hn Hdesc Hmiss.
  assert (Hargs : Operators.resolve_check_args check_args = default ∅ check_args).
  { destruct check_args as [args|]; [apply resolve_check_args_given | reflexivity]. }
  unfold Operators.__init__, Operators.resolve_description.
  rewrite Hdesc, Hargs. cbn [res_bind].
  rewrite (str_format_one_field _ prefix name suffix Hp Hn).
  unfold lookup_kwarg. now rewrite Hmiss.
Qed.

(** The identifier [rows_{table}] with a mapping that only has
    [schema], through [init_identifier_missing_parameter]. *)
Lemma init_identifier_missing_parameter_witness :
  Operators.__init__ demo_env (one_field_template "rows_" "table" "")
                     "SELECT 12" "pg" None (Some "") false None
                     (Some ({[ "schema" := VStr "public" ]} : gmap string PyVal))
    = Raise (mkExc KeyError "'table'").
Proof.
  apply (@init_identifier_missing_parameter PyVal pyval_runtime demo_env
           "rows_" "table" "" "SELECT 12" "pg" None (Some "") false None
           (Some {[ "schema" := VStr "public" ]})).
  - reflexivity.
  - reflexivity.
  - reflexivity.
  - vm_compute. reflexivity.
Defined.

(** ** The plugin's [send_email_notification] *)

(** X15: when the measured value cannot be rounded ([round] raises, as
    for a dictionary without [result]), [send_email_notification] raises
    that error and no e-mail is sent. *)
Theorem send_email_notification_round_error
    {V : Type} `{PyRuntime V} (env : Airflow V) (info : list (string * V))
    (m : Machine Plugins.Operator V) (e : Exc) :
  py_round (dict_get info "result") 2 = Raise e ->
  Plugins.send_email_notification env info m = (Raise e, m).
Proof.
  intros Hround. unfold Plugins.send_email_notification. run_monad.
  rewrite Hround. now destruct m.
Qed.

(** The example record without [result], through
    [send_email_notification_round_error]. *)
Lemma send_email_notification_round_error_witness :
  Plugins.send_email_notification demo_env demo_info_without_result
    (mkMachine demo_plugin_operator [])
  = (Raise (mkExc TypeError "type NoneType doesn't define __round__ method"),
     mkMachine demo_plugin_operator []).
Proof.
  apply (@send_email_notification_round_error PyVal pyval_runtime).
  reflexivity.
Defined.

(** X16: when the measured value can be rounded,
    [send_email_notification] sends exactly one e-mail, to the
    operator's [notification_emails], and returns what [send_email]
    returns (a delivery error comes out as it is; otherwise the call
    returns normally). The subject quotes the task id found in the
    dictionary under [task_id]; the body contains the DAG id, that task
    id, the description, the execution date, the SQL text, the rounded
    value and both thresholds. The operator is left as it was. *)
Theorem send_email_notification_sends_one_email
    {V : Type} `{PyRuntime V} (env : Airflow V) (info : list (string * V))
    (m : Machine Plugins.Operator V) (rounded : V) :
  py_round (dict_get info "result") 2 = Ok rounded ->
  exists subject body : string,
    Plugins.send_email_notification env info m
      = (send_email env (Plugins.notification_emails (self m)) subject body,
         mkMachine (self m)
           (trace m ++ [EvSendEmail (Plugins.notification_emails (self m))
                                    subject body]))
    /\ subject = "Data Quality Check: " +:+ dquote
                   +:+ py_str (dict_get info "task_id") +:+ dquote +:+ " failed"
    /\ contains body (Plugins.dag_id (self m))
    /\ contains body (py_str (dict_get info "task_id"))
    /\ contains body (py_str (dict_get info "description"))
    /\ contains body (py_str (dict_get info "execution_date"))
    /\ contains body (Plugins.sql (self m))
    /\ contains body (py_str rounded)
    /\ contains body (py_str (dict_get info "min_threshold"))
    /\ contains body (py_str (dict_get info "max_threshold")).
Proof.
  intros Hround. unfold Plugins.send_email_notification. run_monad.
  rewrite Hround. cbn [fst snd self trace].
  eexists _, _. split; [reflexivity|]. split.
  - cbn [join_pieces]. now rewrite str_app_nil_r.
  - repeat split; apply contains_join_pieces; simpl; tauto.
Qed.

(** The failing example record, through
    [send_email_notification_sends_one_email]: one e-mail to
    [dq@example.com]. *)
Lemma send_email_notification_sends_one_email_witness :
  exists subject body : string,
    Plugins.send_email_notification demo_env demo_failing_info
      (mkMachine demo_plugin_operator [])
      = (Ok tt,
         mkMachine demo_plugin_operator
           [EvSendEmail (Some ["dq@example.com"]) subject body])
    /\ subject = "Data Quality Check: " +:+ dquote +:+ "row_count"
                   +:+ dquote +:+ " failed"
    /\ contains body "dq_dag"
    /\ contains body "row_count"
    /\ contains body "rows loaded"
    /\ contains body "2019-08-01"
    /\ contains body "SELECT 12"
    /\ contains body "12"
    /\ contains body "50"
    /\ contains body "75".
Proof.
  exact (@send_email_notification_sends_one_email PyVal pyval_runtime demo_env
           demo_failing_info (mkMachine demo_plugin_operator []) (VInt 12)
           eq_refl).
Defined.

(** ** What [get_sql_value] logs *)

(** X17: after the query, [get_sql_value] writes a log line only when it
    rejects a result for having several rows (the line shows [str] of
    the whole result) or for having one row whose number of columns is
    not one (the line shows [str] of that row); it logs nothing for an
    empty result and nothing when it returns the cell. Both versions, on
    the root logger. *)
Theorem get_sql_value_logging
    {V : Type} `{PyRuntime V} (env : Airflow V) (conn_id sql : string)
    (hook : Hook) (rows : list (list V)) :
  hook_get_records env hook sql = Ok rows ->
  (forall (Self : Type) (m : Machine Self V),
      Plugins._get_hook env conn_id = Ok hook ->
      List.filter is_log
        (skipn (length (trace m))
               (trace (snd (Plugins.get_sql_value env conn_id sql m))))
        = match rows with
          | [] => []
          | [row] =>
              match row with
              | [_] => []
              | _ =>
                  [EvLog "root" ("Result: " +:+ py_str_row row
                                   +:+ " does not contain exactly 1 column")]
              end
          | _ =>
              [EvLog "root" ("Result: " +:+ py_str_rows rows
                               +:+ " contains more than 1 entry")]
          end)
  /\ (forall m : Machine Operators.Operator V,
      Operators.resolve_hook env (self m) conn_id = Ok hook ->
      List.filter is_log
        (skipn (length (trace m))
               (trace (snd (Operators.get_sql_value env conn_id sql m))))
        = match rows with
          | [] => []
          | [row] =>
              match row with
              | [_] => []
              | _ =>
                  [EvLog "root" ("Result: " +:+ py_str_row row
                                   +:+ " does not contain exactly 1 column")]
              end
          | _ =>
              [EvLog "root" ("Result: " +:+ py_str_rows rows
                               +:+ " contains more than 1 entry")]
          end).
Proof.
  intros Hrows. split.
  - intros Self m Hhook.
    destruct rows as [|row [|row' rows]].
    + rewrite (plugin_no_rows env conn_id sql hook m Hhook Hrows).
      cbn [snd trace]. now rewrite drop_app_length.
    + destruct row as [|v [|v' row]].
      * rewrite (plugin_wrong_columns env conn_id sql hook m Hhook [] Hrows)
          by (simpl; lia).
        cbn [snd trace]. now rewrite <- app_assoc, drop_app_length.
      * rewrite (plugin_single_cell env conn_id sql hook m Hhook v Hrows).
        cbn [snd trace]. now rewrite drop_app_length.
      * rewrite (plugin_wrong_columns env conn_id sql hook m Hhook _ Hrows)
          by (simpl; lia).
        cbn [snd trace]. now rewrite <- app_assoc, drop_app_length.
    + rewrite (plugin_many_rows env conn_id sql hook m Hhook _ Hrows)
        by (simpl; lia).
      cbn [snd trace]. now rewrite <- app_assoc, drop_app_length.
  - intros m Hhook.
    destruct rows as [|row [|row' rows]].
    + rewrite (operator_no_rows env conn_id sql hook m Hhook Hrows).
      cbn [snd trace]. now rewrite drop_app_length.
    + destruct row as [|v [|v' row]].
      * rewrite (operator_wrong_columns env conn_id sql hook m Hhook [] Hrows)
          by (simpl; lia).
        cbn [snd trace]. now rewrite <- app_assoc, drop_app_length.
      * rewrite (operator_single_cell env conn_id sql hook m Hhook v Hrows).
        cbn [snd trace]. now rewrite drop_app_length.
      * rewrite (operator_wrong_columns env conn_id sql hook m Hhook _ Hrows)
          by (simpl; lia).
        cbn [snd trace]. now rewrite <- app_assoc, drop_app_length.
    + rewrite (operator_many_rows env conn_id sql hook m Hhook _ Hrows)
        by (simpl; lia).
      cbn [snd trace]. now rewrite <- app_assoc, drop_app_length.
Qed.

(** A row of two columns, logged as a tuple, through
    [get_sql_value_logging]. *)
Lemma get_sql_value_logging_witness :
  List.filter is_log
    (skipn 0 (trace (snd (Plugins.get_sql_value demo_env "pg" "SELECT 1, 2"
                            (mkMachine tt [])))))
    = [EvLog "root" "Result: (1, 2) does not contain exactly 1 column"].
Proof.
  exact (proj1 (@get_sql_value_logging PyVal pyval_runtime demo_env "pg"
                  "SELECT 1, 2" (PostgresHook "pg") [[VInt 1; VInt 2]] eq_refl)
           unit (mkMachine tt []) eq_refl).
Defined.

(** ** Connection resolution, version by version *)

Lemma plugin_query_reaches_hook {V : Type} `{PyRuntime V} {Self : Type}
    (env : Airflow V) (conn_id sql : string) (hook : Hook) (m : Machine Self V) :
  Plugins._get_hook env conn_id = Ok hook ->
  trace (snd (Plugins.get_sql_value env conn_id sql m)) !! length (trace m)
    = Some (EvQuery hook sql).
Proof.
  intros Hhook.
  destruct (plugin_outcome env conn_id sql hook m Hhook) as (r & logs & -> & _).
  cbn [snd trace]. rewrite <- app_assoc. now apply list_lookup_middle.
Qed.

Lemma operator_query_reaches_hook {V : Type} `{PyRuntime V}
    (env : Airflow V) (conn_id sql : string) (hook : Hook)
    (m : Machine Operators.Operator V) :
  Operators.resolve_hook env (self m) conn_id = Ok hook ->
  trace (snd (Operators.get_sql_value env conn_id sql m)) !! length (trace m)
    = Some (EvQuery hook sql).
Proof.
  intros Hhook.
  destruct (operator_outcome env conn_id sql hook m Hhook) as (r & logs & -> & _).
  cbn [snd trace]. rewrite <- app_assoc. now apply list_lookup_middle.
Qed.

(** C8, as the code has it: resolution dispatches on the backend kind of
    the connection, and differently in the two versions. The plugin's
    [_get_hook] gives a Postgres hook for [postgres], a MySQL hook for
    [mysql], a HiveServer2 hook for [hive], and refuses every other
    kind, the BigQuery kind among them, with a [ValueError]. The
    operator's [get_sql_value] gives, for the BigQuery kind
    [google_cloud_platform], a BigQuery hook built with the
    [use_legacy_sql] flag the constructor was configured with, and for
    every other kind whatever Airflow's [BaseHook.get_hook] gives. In
    both versions the query is sent to the hook so resolved. *)
Theorem connection_resolution_by_version
    {V : Type} `{PyRuntime V} (env : Airflow V)
    (conn_id sql : string) (conn : Connection) :
  connections env !! conn_id = Some conn ->
  (conn_type conn = "postgres" ->
     Plugins._get_hook env conn_id = Ok (PostgresHook conn_id))
  /\ (conn_type conn = "mysql" ->
     Plugins._get_hook env conn_id = Ok (MySqlHook conn_id))
  /\ (conn_type conn = "hive" ->
     Plugins._get_hook env conn_id = Ok (HiveServer2Hook conn_id))
  /\ (conn_type conn <> "postgres" -> conn_type conn <> "mysql" ->
      conn_type conn <> "hive" ->
     Plugins._get_hook env conn_id
       = Raise (mkExc ValueError (Plugins.unsupported_msg (conn_type conn))))
  /\ (conn_type conn = "google_cloud_platform" ->
     Plugins._get_hook env conn_id
       = Raise (mkExc ValueError (Plugins.unsupported_msg "google_cloud_platform")))
  /\ (forall (Self : Type) (m : Machine Self V) (hook : Hook),
     Plugins._get_hook env conn_id = Ok hook ->
     trace (snd (Plugins.get_sql_value env conn_id sql m)) !! length (trace m)
       = Some (EvQuery hook sql))
  /\ (forall me : Operators.Operator,
     conn_type conn = "google_cloud_platform" ->
     Operators.resolve_hook env me conn_id
       = Ok (BigQueryHook conn_id (Operators.use_legacy_sql me)))
  /\ (forall me : Operators.Operator,
     conn_type conn <> "google_cloud_platform" ->
     Operators.resolve_hook env me conn_id = base_get_hook env conn_id)
  /\ (forall m : Machine Operators.Operator V,
     conn_type conn = "google_cloud_platform" ->
     trace (snd (Operators.get_sql_value env conn_id sql m)) !! length (trace m)
       = Some (EvQuery (BigQueryHook conn_id (Operators.use_legacy_sql (self m)))
                       sql))
  /\ (forall (m : Machine Operators.Operator V) (hook : Hook),
     conn_type conn <> "google_cloud_platform" ->
     base_get_hook env conn_id = Ok hook ->
     trace (snd (Operators.get_sql_value env conn_id sql m)) !! length (trace m)
       = Some (EvQuery hook sql))
  /\ (forall task_id op_sql op_conn_id push_conn_id check_description legacy
             writer check_args (me : Operators.Operator),
     conn_type conn = "google_cloud_platform" ->
     Operators.__init__ env task_id op_sql op_conn_id push_conn_id
                        check_description legacy writer check_args = Ok me ->
     Operators.resolve_hook env me conn_id = Ok (BigQueryHook conn_id legacy)).
Proof.
  intros Hconn.
  split; [|split; [|split; [|split; [|split; [|split; [|split;
    [|split; [|split; [|split]]]]]]]]].
  - intros Hk. now rewrite (plugin_hook_supported env conn_id conn Hconn _ Hk).
  - intros Hk. now rewrite (plugin_hook_supported env conn_id conn Hconn _ Hk).
  - intros Hk. now rewrite (plugin_hook_supported env conn_id conn Hconn _ Hk).
  - apply (plugin_hook_unsupported env conn_id conn Hconn).
  - intros Hk. now rewrite (plugin_hook_supported env conn_id conn Hconn _ Hk).
  - intros Self m hook Hhook. now apply plugin_query_reaches_hook.
  - intros me Hk. exact (operator_hook_bigquery env conn_id conn Hconn me Hk).
  - intros me Hk. exact (operator_hook_delegated env conn_id conn Hconn me Hk).
  - intros m Hk. apply operator_query_reaches_hook.
    exact (operator_hook_bigquery env conn_id conn Hconn (self m) Hk).
  - intros m hook Hk Hbase. apply operator_query_reaches_hook.
    now rewrite (operator_hook_delegated env conn_id conn Hconn (self m) Hk).
  - intros task_id op_sql op_conn_id push_conn_id check_description legacy
           writer check_args me Hk Hinit.
    rewrite (operator_hook_bigquery env conn_id conn Hconn me Hk).
    now rewrite (init_keeps_use_legacy_sql _ _ _ _ _ _ _ _ _ _ Hinit).
Qed.

(** The five connections of the example installation, through
    [connection_resolution_by_version]: the three kinds of the plugin,
    the two it refuses, the BigQuery hook of an operator constructed
    with legacy SQL, and a Postgres connection handed to Airflow by the
    operator, with the queries the hooks receive. *)
Lemma connection_resolution_by_version_witness :
  Plugins._get_hook demo_env "pg" = Ok (PostgresHook "pg")
  /\ Plugins._get_hook demo_env "my" = Ok (MySqlHook "my")
  /\ Plugins._get_hook demo_env "hv" = Ok (HiveServer2Hook "hv")
  /\ Plugins._get_hook demo_env "ora"
     = Raise (mkExc ValueError (Plugins.unsupported_msg "oracle"))
  /\ Plugins._get_hook demo_env "bq"
     = Raise (mkExc ValueError (Plugins.unsupported_msg "google_cloud_platform"))
  /\ trace (snd (Plugins.get_sql_value demo_env "my" "SELECT 12" (mkMachine tt [])))
       !! 0%nat
     = Some (EvQuery (MySqlHook "my") "SELECT 12")
  /\ Operators.resolve_hook demo_env demo_legacy_operator "bq"
     = Ok (BigQueryHook "bq" true)
  /\ Operators.resolve_hook demo_env demo_legacy_operator "pg"
     = Ok (AirflowHook "postgres" "pg")
  /\ trace (snd (Operators.get_sql_value demo_env "bq" "SELECT 12"
                   (mkMachine demo_legacy_operator [])))
       !! 0%nat
     = Some (EvQuery (BigQueryHook "bq" true) "SELECT 12")
  /\ trace (snd (Operators.get_sql_value demo_env "pg" "SELECT 12"
                   (mkMachine demo_legacy_operator [])))
       !! 0%nat
     = Some (EvQuery (AirflowHook "postgres" "pg") "SELECT 12").
Proof.
  pose proof (@connection_resolution_by_version PyVal pyval_runtime demo_env
                "pg" "SELECT 12" (mkConnection "postgres")
                ltac:(vm_compute; reflexivity))
    as (Hpg & _ & _ & _ & _ & _ & _ & Hpg_op & _ & Hpg_query & _).
  pose proof (@connection_resolution_by_version PyVal pyval_runtime demo_env
                "my" "SELECT 12" (mkConnection "mysql")
                ltac:(vm_compute; reflexivity))
    as (_ & Hmy & _ & _ & _ & Hmy_query & _).
  pose proof (@connection_resolution_by_version PyVal pyval_runtime demo_env
                "hv" "SELECT 12" (mkConnection "hive")
                ltac:(vm_compute; reflexivity))
    as (_ & _ & Hhv & _).
  pose proof (@connection_resolution_by_version PyVal pyval_runtime demo_env
                "ora" "SELECT 12" (mkConnection "oracle")
                ltac:(vm_compute; reflexivity))
    as (_ & _ & _ & Hora & _).
  pose proof (@connection_resolution_by_version PyVal pyval_runtime demo_env
                "bq" "SELECT 12" (mkConnection "google_cloud_platform")
                ltac:(vm_compute; reflexivity))
    as (_ & _ & _ & _ & Hbq & _ & _ & _ & Hbq_query & _ & Hbq_init).
  split; [apply Hpg; reflexivity|].
  split; [apply Hmy; reflexivity|].
  split; [apply Hhv; reflexivity|].
  split; [apply Hora; discriminate|].
  split; [apply Hbq; reflexivity|].
  split; [apply (Hmy_query unit (mkMachine tt []) (MySqlHook "my")),
            Hmy; reflexivity|].
  split.
  { apply (Hbq_init "bq_rows" "SELECT 12" "bq" None None true None None
                    demo_legacy_operator);
      [reflexivity | vm_compute; reflexivity]. }
  split; [rewrite Hpg_op by discriminate; vm_compute; reflexivity|].
  split; [apply (Hbq_query (mkMachine demo_legacy_operator [])); reflexivity|].
  apply (Hpg_query (mkMachine demo_legacy_operator [])
                   (AirflowHook "postgres" "pg"));
    [discriminate | vm_compute; reflexivity].
Defined.

(** C8, as the claim words it, fails: there is no one resolution that
    serves the four kinds. The plugin's resolver, which serves
    [postgres], refuses the BigQuery kind with a [ValueError], and a
    query on such a connection is never sent. *)
Lemma plugin_refuses_bigquery :
  Plugins._get_hook demo_env "pg" = Ok (PostgresHook "pg")
  /\ Plugins._get_hook demo_env "bq"
     = Raise (mkExc ValueError (Plugins.unsupported_msg "google_cloud_platform"))
  /\ Plugins.get_sql_value demo_env "bq" "SELECT 12" (mkMachine tt [])
     = (Raise (mkExc ValueError (Plugins.unsupported_msg "google_cloud_platform")),
        mkMachine tt []).
Proof. repeat split; vm_compute; reflexivity. Qed.
